(** * ExaZK: anycast health controller (exazk.py)

    A shallow embedding of the coordination engine of [exazk.py]: the
    health probe, the BGP route table and speaker, the runtime flags,
    the ZooKeeper session listener and one turn of the main loop.

    Python objects that are mutated in place are modelled by explicit
    state passing; everything the program does to the outside world
    (stdout, the logger, signals, child processes, ZooKeeper calls) is
    recorded, in program order, in a trace of events.  The answers of
    the outside world (exit status of the probe command, replies of the
    ZooKeeper ensemble) are inputs of the model. *)

From stdpp Require Import base strings gmap list pretty.
From Stdlib Require Import ZArith.

Open Scope Z_scope.

(** ** Python values *)

(** The values that occur in route dictionaries: text and integers. *)
Inductive Val :=
| VStr (s : string)
| VInt (z : Z).

(** ['%s' % v]: [str(v)]. *)
Definition fmt_s (v : Val) : string :=
  match v with
  | VStr s => s
  | VInt z => pretty z
  end.

(** Exceptions that travel through the modelled code. *)
Inductive Exn :=
| Alarm                          (* class Alarm(Exception) *)
| PyException (msg : string)     (* raise Exception(msg) *)
| KeyError (key : string)        (* d[key] on a missing key *)
| SessionExpiredError            (* kazoo.exceptions.SessionExpiredError *)
| ZkError (name : string).       (* any other exception of the client *)

Inductive Res (A : Type) :=
| Ret (a : A)
| Raise (e : Exn).
Arguments Ret {A} a.
Arguments Raise {A} e.

(** ** Observable events *)

Inductive Level := DEBUG | INFO | WARNING | ERROR.

Inductive Signal := SIGALRM | SIGKILL | SIGINT | SIGTERM.

Inductive Handler := alarm_signal_handler | SIG_IGN | exit_signal_handler.

Inductive Event :=
| Print (line : string)                    (* print(line) on stdout *)
| Flush                                    (* sys.stdout.flush() *)
| Log (lvl : Level) (msg : string)         (* logger.<lvl>(msg) *)
| SignalInstall (sig : Signal) (h : Handler) (* signal.signal(sig, h) *)
| SetAlarm (seconds : Z)                   (* signal.alarm(seconds) *)
| Popen (command : string) (pgrp : bool) (pid : Z)
                                           (* subprocess.Popen(command, shell=True,
                                              preexec_fn=os.setpgrp) *)
| Killpg (pid : Z) (sig : Signal)          (* os.killpg(pid, sig) *)
| ZkCreate (path : string) (ephemeral : bool) (* zk.create(path, ephemeral=..) *)
| ZkGetChildren (path : string).           (* zk.get_children(path) *)

(** ** The effect monad

    A computation over a mutable object of type [S] yields the events
    it produced, the object as it is left (mutations made before an
    exception stay), and either a value or a raised exception. *)

Definition M (S A : Type) : Type := S -> list Event * S * Res A.

Definition ret {S A} (a : A) : M S A := fun s => ([], s, Ret a).

Definition raise {S A} (e : Exn) : M S A := fun s => ([], s, Raise e).

Definition bind {S A B} (m : M S A) (f : A -> M S B) : M S B :=
  fun s =>
    match m s with
    | (t1, s1, Ret a) =>
        match f a s1 with
        | (t2, s2, r) => (t1 ++ t2, s2, r)
        end
    | (t1, s1, Raise e) => (t1, s1, Raise e)
    end.

Notation "x <- m ;; k" := (bind m (fun x => k))
  (at level 100, m at next level, right associativity, only parsing).
Notation "m ;; k" := (bind m (fun _ => k))
  (at level 100, k at level 200, right associativity, only parsing).

Definition emit {S} (e : Event) : M S unit := fun s => ([e], s, Ret tt).

Definition gets {S A} (f : S -> A) : M S A := fun s => ([], s, Ret (f s)).

Definition modify {S} (f : S -> S) : M S unit := fun s => ([], f s, Ret tt).

(** [try: m  except <those e with h e = Some k>: k]. *)
Definition try_except {S A} (m : M S A) (h : Exn -> option (M S A)) : M S A :=
  fun s =>
    match m s with
    | (t1, s1, Ret a) => (t1, s1, Ret a)
    | (t1, s1, Raise e) =>
        match h e with
        | Some k => match k s1 with (t2, s2, r) => (t1 ++ t2, s2, r) end
        | None => (t1, s1, Raise e)
        end
    end.

(** Code that touches no modelled object runs over [unit]. *)
Abbreviation IO A := (M unit A).

Definition lift {S A} (m : IO A) : M S A :=
  fun s => match m tt with (t, _, r) => (t, s, r) end.

(** A method called on a local object [l]; the object comes back with
    the result. *)
Definition on_local {S L A} (l : L) (m : M L A) : M S (L * A) :=
  fun s =>
    match m l with
    | (t, l', Ret a) => (t, s, Ret (l', a))
    | (t, _, Raise e) => (t, s, Raise e)
    end.

(** [for x in xs: body x]. *)
Fixpoint for_each {S A} (xs : list A) (body : A -> M S unit) : M S unit :=
  match xs with
  | [] => ret tt
  | x :: rest => body x;; for_each rest body
  end.

Definition log {S} (lvl : Level) (msg : string) : M S unit := emit (Log lvl msg).

(** The lines printed on stdout, in order. *)
Definition stdout_lines (t : list Event) : list string :=
  omap (fun e => match e with Print l => Some l | _ => None end) t.

(** ** ServiceChecker *)

(** What the operating system answers to one run of the probe command:
    the pid of the shell, and how [p.wait()] ends: with the exit status,
    or cut short by SIGALRM, whose handler raises [Alarm].  The alarm
    set by [signal.alarm(1)] is taken to fire, if it does, while the
    program sits in [p.wait()], the one call of [check] that blocks, and
    [Popen] is taken to start the shell: a command [Popen] refuses, or
    an alarm that falls outside the wait, is outside this model. *)
Inductive WaitOutcome :=
| Exited (rc : Z)
| TimedOut.

Record ProbeRun := { pid : Z; outcome : WaitOutcome }.

Record ServiceChecker := { command : string }.

Section Checker.
Variable os : string -> ProbeRun.

Definition p_wait (p : ProbeRun) : IO Z :=
  match outcome p with
  | Exited rc => ret rc
  | TimedOut => raise Alarm
  end.

(** [check]: the [try] block yields [Some b] when it executed
    [return b] and [None] when it fell through to [return False].
    Opening [os.devnull] leaves no event. *)
Definition check (self : ServiceChecker) : IO bool :=
  let p := os (command self) in
  r <- try_except
         (emit (SignalInstall SIGALRM alarm_signal_handler);;
          emit (SetAlarm 1);;
          emit (Popen (command self) true (pid p));;
          rc <- p_wait p;;
          emit (SignalInstall SIGALRM SIG_IGN);;
          if bool_decide (rc = 0) then ret (Some true)
          else log ERROR ("local check returned: " +:+ pretty rc);; ret None)
         (fun e =>
            match e with
            | Alarm =>
                Some (log ERROR "local check spent more than 1s to run";;
                      emit (Killpg (pid p) SIGKILL);;
                      ret None)
            | _ => None
            end);;
  match r with
  | Some b => ret b
  | None => ret false
  end.
End Checker.

(** ** BGPTable *)

(** A route is the keyword dictionary the caller passed. *)
Abbreviation Route := (gmap string Val).

Record BGPTable := { announce : list Route }.

(** [BGPTable()] *)
Definition new_BGPTable : BGPTable := {| announce := [] |}.

Definition has_key (route : Route) (k : string) : bool :=
  bool_decide (is_Some (route !! k)).

(** ['prefix' not in route or 'dst' not in route or 'metric' not in route] *)
Definition missing_field (route : Route) : bool :=
  negb (has_key route "prefix") || negb (has_key route "dst")
  || negb (has_key route "metric").

(** [route[k]] *)
Definition getitem {S} (route : Route) (k : string) : M S Val :=
  match route !! k with
  | Some v => ret v
  | None => raise (KeyError k)
  end.

Definition mandatory_msg : string := "prefix, dst & metric are mandatory in route".

Definition add_route (route : Route) : M BGPTable unit :=
  if missing_field route then raise (PyException mandatory_msg)
  else
    p <- getitem route "prefix";;
    log DEBUG ("adding BGP route: " +:+ fmt_s p);;
    modify (fun self => {| announce := announce self ++ [route] |}).

Definition get_routes (self : BGPTable) : list Route := announce self.

(** ** BGPSpeaker *)

Record BGPSpeaker := { table : BGPTable }.

Definition announce_line (prefix metric : Val) : string :=
  "announce route " +:+ fmt_s prefix +:+ "/32 next-hop self med " +:+ fmt_s metric.

Definition withdraw_line (prefix metric : Val) : string :=
  "withdraw route " +:+ fmt_s prefix +:+ "/32 next-hop self med " +:+ fmt_s metric.

Definition advertise_routes (self : BGPSpeaker) : IO unit :=
  log INFO "advertising routes";;
  for_each (get_routes (table self))
    (fun route =>
       p <- getitem route "prefix";;
       m <- getitem route "metric";;
       emit (Print (announce_line p m)));;
  emit Flush.

Definition withdraw_route (self : BGPSpeaker) (route : Route) : IO unit :=
  if missing_field route then raise (PyException mandatory_msg)
  else
    p <- getitem route "prefix";;
    log DEBUG ("removing BGP route: " +:+ fmt_s p);;
    m <- getitem route "metric";;
    emit (Print (withdraw_line p m));;
    emit Flush.

(** The keyword dictionary [prefix=ip, dst='1.1.1.1', metric=m]. *)
Definition mk_route (ip : string) (m : Z) : Route :=
  <["metric" := VInt m]> (<["dst" := VStr "1.1.1.1"]> (<["prefix" := VStr ip]> ∅)).

(** ** EZKConf *)

Record EZKConf := {
  zk_hosts : list string;
  zk_path_service : string;
  srv_name : string;
  srv_auth_ip : string;
  srv_non_auth_ips : list string;
  local_check : string
}.

(** ['%s/%s' % (zk_path_service, srv_name)] *)
Definition service_dir (c : EZKConf) : string :=
  zk_path_service c +:+ "/" +:+ srv_name c.

(** ['%s/%s/%s' % (zk_path_service, srv_name, srv_auth_ip)] *)
Definition node_path (c : EZKConf) : string :=
  zk_path_service c +:+ "/" +:+ srv_name c +:+ "/" +:+ srv_auth_ip c.

(** ** The ZooKeeper client

    What the ensemble answers, at the time of the call, to the two
    requests the runtime makes. *)
Record KazooClient := {
  zk_create : string -> bool -> Res string;
  zk_get_children : string -> Res (list string)
}.

(** The session states of the client library, with [INIT], which
    [EZKState] adds; the listener is called with the three others. *)
Inductive KazooState := INIT | CONNECTED | SUSPENDED | LOST.

Definition state_name (st : KazooState) : string :=
  match st with
  | INIT => "INIT"
  | CONNECTED => "CONNECTED"
  | SUSPENDED => "SUSPENDED"
  | LOST => "LOST"
  end.

#[global] Instance KazooState_eq_dec : EqDecision KazooState.
Proof. solve_decision. Defined.

(** ** EZKRuntime *)

Record EZKRuntime := {
  conf : EZKConf;
  bgp_table : BGPTable;
  (* flags *)
  refresh : bool;
  recreate : bool;
  shouldstop : bool
}.

(** [EZKRuntime(conf=conf, zk=zk)] *)
Definition new_EZKRuntime (c : EZKConf) : EZKRuntime :=
  {| conf := c; bgp_table := new_BGPTable;
     refresh := true; recreate := true; shouldstop := false |}.

Definition assign_bgp_table (t : BGPTable) (r : EZKRuntime) : EZKRuntime :=
  {| conf := conf r; bgp_table := t;
     refresh := refresh r; recreate := recreate r; shouldstop := shouldstop r |}.

Definition assign_refresh (b : bool) (r : EZKRuntime) : EZKRuntime :=
  {| conf := conf r; bgp_table := bgp_table r;
     refresh := b; recreate := recreate r; shouldstop := shouldstop r |}.

Definition assign_recreate (b : bool) (r : EZKRuntime) : EZKRuntime :=
  {| conf := conf r; bgp_table := bgp_table r;
     refresh := refresh r; recreate := b; shouldstop := shouldstop r |}.

Definition assign_shouldstop (b : bool) (r : EZKRuntime) : EZKRuntime :=
  {| conf := conf r; bgp_table := bgp_table r;
     refresh := refresh r; recreate := recreate r; shouldstop := b |}.

Definition set_bgp_table (t : BGPTable) : M EZKRuntime unit :=
  modify (assign_bgp_table t).

Definition get_bgp_table : M EZKRuntime BGPTable := gets bgp_table.

Definition get_conf : M EZKRuntime EZKConf := gets conf.

(** Reads of the flags: [runtime.refresh], [runtime.recreate],
    [runtime.shouldstop]. *)
Definition get_refresh : M EZKRuntime bool := gets refresh.
Definition get_recreate : M EZKRuntime bool := gets recreate.
Definition get_shouldstop : M EZKRuntime bool := gets shouldstop.

Definition trigger_refresh : M EZKRuntime unit := modify (assign_refresh true).

Definition trigger_recreate : M EZKRuntime unit := modify (assign_recreate true).

Section Runtime.
Variable zk : KazooClient.

(** [self.get_zk().create(path, ephemeral=True)] *)
Definition call_create (path : string) : M EZKRuntime string :=
  emit (ZkCreate path true);;
  match zk_create zk path true with
  | Ret p => ret p
  | Raise e => raise e
  end.

(** [self.get_zk().get_children(path)] *)
Definition call_get_children (path : string) : M EZKRuntime (list string) :=
  emit (ZkGetChildren path);;
  match zk_get_children zk path with
  | Ret l => ret l
  | Raise e => raise e
  end.

Definition create_node : M EZKRuntime unit :=
  modify (assign_recreate false);;
  log INFO "re-creating my ephemeral node";;
  try_except
    (c <- get_conf;;
     call_create (node_path c);;
     ret tt)
    (fun e =>
       match e with
       | SessionExpiredError => Some (modify (assign_recreate true))
       | _ => None
       end).

(** One turn of the loop over [srv_non_auth_ips], on the local table. *)
Definition refresh_ip (children : list string) (ip : string) : M BGPTable unit :=
  if negb (bool_decide (ip ∈ children)) then
    add_route (mk_route ip 200)
  else
    lift (withdraw_route {| table := new_BGPTable |} (mk_route ip 200)).

(** [refresh_children]; the last route reads [srv_auth_ip] through the
    module-level [runtime], which is the object [self] is. *)
Definition refresh_children : M EZKRuntime unit :=
  modify (assign_refresh false);;
  log INFO "refreshing children & routes";;
  c <- get_conf;;
  children <- call_get_children (service_dir c);;
  built <- on_local new_BGPTable
    (for_each (srv_non_auth_ips c) (refresh_ip children);;
     add_route (mk_route (srv_auth_ip c) 100));;
  set_bgp_table (fst built).
End Runtime.

(** ** Handlers called by the client library and by signals *)

(** [exit_signal_handler(signal, frame)] *)
Definition exit_signal_handler_body (signum : Z) : M EZKRuntime unit :=
  log INFO ("received signal " +:+ pretty signum +:+ ", preparing to stop");;
  modify (assign_shouldstop true).

Definition when {S} (b : bool) (m : M S unit) : M S unit :=
  if b then m else ret tt.

(** [zk_transition(state)] *)
Definition zk_transition (st : KazooState) : M EZKRuntime unit :=
  log INFO ("zk state changed to " +:+ state_name st);;
  when (bool_decide (st = SUSPENDED))
    (log ERROR "zk disconnected, flushing routes...";;
     set_bgp_table new_BGPTable;;
     let bgp_speaker := {| table := new_BGPTable |} in
     c <- get_conf;;
     for_each (srv_non_auth_ips c)
       (fun ip => lift (withdraw_route bgp_speaker (mk_route ip 200)));;
     lift (withdraw_route bgp_speaker (mk_route (srv_auth_ip c) 100)));;
  when (bool_decide (st = LOST))
    (log ERROR "zk lost, have to re-create ephemeral node";;
     trigger_recreate);;
  when (bool_decide (st = CONNECTED))
    trigger_refresh.

(** [repr] of a list of names, for names without quotes or escapes. *)
Definition repr_names (l : list string) : string :=
  "[" +:+ String.concat ", " (map (fun s => "'" +:+ s +:+ "'") l) +:+ "]".

(** [zk_watch(children)] *)
Definition zk_watch (children : list string) : M EZKRuntime unit :=
  log DEBUG ("zk children are " +:+ repr_names children);;
  trigger_refresh.

(** ** The main loop *)

(** How one turn of [while not runtime.shouldstop] ends. *)
Inductive Ctl := Next | Break.

Section Loop.
Variable os : string -> ProbeRun.
Variable zk : KazooClient.

(** The body of the main loop.  The inner waiting loop only sleeps
    and reads the clock and the flags; it changes nothing that is
    modelled, so the body starts where the wait ends. *)
Definition loop_body : M EZKRuntime Ctl :=
  stop <- get_shouldstop;;
  if stop then ret Break
  else
    c <- get_conf;;
    ok <- lift (check os {| command := local_check c |});;
    if negb ok then ret Next
    else
      rc <- get_recreate;;
      when rc (create_node zk);;
      rf <- get_refresh;;
      when rf (refresh_children zk);;
      t <- get_bgp_table;;
      lift (advertise_routes {| table := t |});;
      ret Next.
End Loop.

(** The answers of the outside world during one turn. *)
Record World := { w_os : string -> ProbeRun; w_zk : KazooClient }.

(** [while not runtime.shouldstop: ...], run for the turns whose worlds
    are given. *)
Fixpoint main_loop (worlds : list World) : M EZKRuntime unit :=
  match worlds with
  | [] => ret tt
  | w :: rest =>
      stop <- get_shouldstop;;
      if stop then ret tt
      else
        c <- loop_body (w_os w) (w_zk w);;
        match c with
        | Break => ret tt
        | Next => main_loop rest
        end
  end.

(** ** Scenario data (spec S1, S2) *)

Definition conf_S : EZKConf :=
  {| zk_hosts := ["zk1:2181"];
     zk_path_service := "/services";
     srv_name := "dns";
     srv_auth_ip := "10.0.0.1";
     srv_non_auth_ips := ["10.0.0.2"; "10.0.0.3"];
     local_check := "true" |}.

Definition os_pass : string -> ProbeRun := fun _ => {| pid := 4242; outcome := Exited 0 |}.
Definition os_fail : string -> ProbeRun := fun _ => {| pid := 4242; outcome := Exited 1 |}.
Definition os_slow : string -> ProbeRun := fun _ => {| pid := 4242; outcome := TimedOut |}.

Definition zk_with (children : list string) : KazooClient :=
  {| zk_create := fun p _ => Ret p;
     zk_get_children := fun _ => Ret children |}.

(** * Vocabulary of the statements

    Event lists, tables and lines named in the lemmas below, and the
    sample configurations and worlds they are run on. *)

(** The events of one [withdraw_route] call with all fields given. *)
Definition withdraw_events (ip : string) (m : Z) : list Event :=
  [Log DEBUG ("removing BGP route: " +:+ ip);
   Print (withdraw_line (VStr ip) (VInt m));
   Flush].

Definition check_prologue (cmd : string) (p : ProbeRun) : list Event :=
  [SignalInstall SIGALRM alarm_signal_handler; SetAlarm 1; Popen cmd true (pid p)].

Definition zk_expired : KazooClient :=
  {| zk_create := fun _ _ => Raise SessionExpiredError;
     zk_get_children := fun _ => Raise SessionExpiredError |}.


Definition zk_node_exists : KazooClient :=
  {| zk_create := fun _ _ => Raise (ZkError "NodeExistsError");
     zk_get_children := fun _ => Ret ["10.0.0.1"] |}.

(** What the listener writes while it handles SUSPENDED. *)
Definition suspended_events (c : EZKConf) : list Event :=
  [Log INFO "zk state changed to SUSPENDED";
   Log ERROR "zk disconnected, flushing routes..."]
  ++ flat_map (fun ip => withdraw_events ip 200) (srv_non_auth_ips c)
  ++ withdraw_events (srv_auth_ip c) 100.

(** The table the spec describes: a metric-200 route for each entry of
    [srv_non_auth_ips] that is not a child, in order, then the
    metric-100 route of [srv_auth_ip]. *)
Definition spec_routes (c : EZKConf) (children : list string) : list Route :=
  map (fun ip => mk_route ip 200)
      (filter (fun ip => ip ∉ children) (srv_non_auth_ips c))
  ++ [mk_route (srv_auth_ip c) 100].

(** What the loop over [srv_non_auth_ips] writes. *)
Definition refresh_events (children ips : list string) : list Event :=
  flat_map (fun ip =>
              if bool_decide (ip ∈ children) then withdraw_events ip 200
              else [Log DEBUG ("adding BGP route: " +:+ ip)]) ips.

(** A configuration that lists the node's own address among the
    shared ones. *)
Definition conf_overlap : EZKConf :=
  {| zk_hosts := ["zk1:2181"];
     zk_path_service := "/services";
     srv_name := "dns";
     srv_auth_ip := "10.0.0.1";
     srv_non_auth_ips := ["10.0.0.1"; "10.0.0.2"];
     local_check := "true" |}.

(** The body of the loop of [advertise_routes]. *)
Definition announce_body (route : Route) : IO unit :=
  bind (getitem route "prefix") (fun p =>
  bind (getitem route "metric") (fun m =>
  emit (Print (announce_line p m)))).

(** The announce lines of the table the spec describes. *)
Definition spec_announce_lines (c : EZKConf) (children : list string) : list string :=
  map (fun ip => "announce route " +:+ ip +:+ "/32 next-hop self med 200")
      (filter (fun ip => ip ∉ children) (srv_non_auth_ips c))
  ++ ["announce route " +:+ srv_auth_ip c +:+ "/32 next-hop self med 100"].

(** What follows the [recreate] step in a turn: the [refresh] step and
    the emission. *)
Definition turn_tail (zk : KazooClient) (s1 : EZKRuntime)
  : list Event * EZKRuntime * Res Ctl :=
  match when (refresh s1) (refresh_children zk) s1 with
  | (t2, s2, Raise e) => (t2, s2, Raise e)
  | (t2, s2, Ret _) =>
      match advertise_routes {| table := bgp_table s2 |} tt with
      | (t3, _, Ret _) => (t2 ++ t3, s2, Ret Next)
      | (t3, _, Raise e) => (t2 ++ t3, s2, Raise e)
      end
  end.

Definition check_pass_events (cmd : string) (p : ProbeRun) : list Event :=
  check_prologue cmd p ++ [SignalInstall SIGALRM SIG_IGN].

(** The create does not abort the turn: it succeeds, or the session
    has expired. *)
Definition fatal_create (zk : KazooClient) (c : EZKConf) : bool :=
  match zk_create zk (node_path c) true with
  | Ret _ => false
  | Raise SessionExpiredError => false
  | Raise _ => true
  end.

Definition create_events (c : EZKConf) : list Event :=
  [Log INFO "re-creating my ephemeral node"; ZkCreate (node_path c) true].

Definition reconcile_events (c : EZKConf) (children : list string) : list Event :=
  [Log INFO "refreshing children & routes"; ZkGetChildren (service_dir c)]
  ++ refresh_events children (srv_non_auth_ips c)
  ++ [Log DEBUG ("adding BGP route: " +:+ srv_auth_ip c)].

Definition advertise_events (c : EZKConf) (children : list string) : list Event :=
  Log INFO "advertising routes" :: map Print (spec_announce_lines c children) ++ [Flush].

(** The runtime after the [refresh] step, when the child list is read. *)
Definition after_refresh (children : list string) (s1 : EZKRuntime) : EZKRuntime :=
  if refresh s1 then
    assign_bgp_table {| announce := spec_routes (conf s1) children |}
      (assign_refresh false s1)
  else s1.

(** Events that neither write to stdout nor call ZooKeeper. *)
Definition quiet (e : Event) : Prop :=
  match e with
  | Print _ | Flush | ZkCreate _ _ | ZkGetChildren _ => False
  | _ => True
  end.

(** ** Vocabulary of the further properties *)

(** The value a route holds under [k]; the default is never read for a
    route that has the key. *)
Definition field (route : Route) (k : string) : Val :=
  default (VStr "") (route !! k).

(** The line [advertise_routes] prints for a route. *)
Definition route_announce_line (route : Route) : string :=
  announce_line (field route "prefix") (field route "metric").

(** A route [advertise_routes] can print: it has the two keys read. *)
Definition printable (route : Route) : Prop :=
  is_Some (route !! "prefix") /\ is_Some (route !! "metric").

(** The first key [advertise_routes] reads and does not find. *)
Definition first_missing (route : Route) : option string :=
  match route !! "prefix", route !! "metric" with
  | None, _ => Some "prefix"
  | Some _, None => Some "metric"
  | Some _, Some _ => None
  end.

(** Events of [advertise_routes]: the logger and stdout. *)
Definition speaker_event (e : Event) : Prop :=
  match e with
  | Log _ _ | Print _ | Flush => True
  | _ => False
  end.

(** The callbacks that run between turns of the loop: the session
    listener, the child watch and the signal handler. *)
Inductive Callback :=
| OnTransition (st : KazooState)
| OnWatch (children : list string)
| OnSignal (signum : Z).

Definition run_callback (cb : Callback) : M EZKRuntime unit :=
  match cb with
  | OnTransition st => zk_transition st
  | OnWatch children => zk_watch children
  | OnSignal signum => exit_signal_handler_body signum
  end.

Definition sets_refresh (cb : Callback) : bool :=
  match cb with
  | OnTransition CONNECTED | OnWatch _ => true
  | _ => false
  end.

Definition sets_recreate (cb : Callback) : bool :=
  match cb with
  | OnTransition LOST => true
  | _ => false
  end.

Definition sets_shouldstop (cb : Callback) : bool :=
  match cb with
  | OnSignal _ => true
  | _ => false
  end.

Definition clears_table (cb : Callback) : bool :=
  match cb with
  | OnTransition SUSPENDED => true
  | _ => false
  end.

(** One thing that happens to the runtime: a callback, or a turn of the
    loop in some world. *)
Inductive happens : EZKRuntime -> EZKRuntime -> Prop :=
| happens_callback (cb : Callback) (s : EZKRuntime) :
    happens s (run_callback cb s).1.2
| happens_turn (w : World) (s : EZKRuntime) :
    happens s (loop_body (w_os w) (w_zk w) s).1.2.

(** The states a run started with configuration [c] can be in. *)
Definition reachable (c : EZKConf) (s : EZKRuntime) : Prop :=
  rtc happens (new_EZKRuntime c) s.

(** * Properties *)

(** ** The scenarios S1 and S2 of the spec *)

Example scenario_S1 :
  stdout_lines (loop_body os_pass (zk_with []) (new_EZKRuntime conf_S)).1.1
  = ["announce route 10.0.0.2/32 next-hop self med 200";
     "announce route 10.0.0.3/32 next-hop self med 200";
     "announce route 10.0.0.1/32 next-hop self med 100"].
Proof. vm_compute. reflexivity. Qed.

Example scenario_S2 :
  stdout_lines (loop_body os_pass (zk_with ["10.0.0.2"]) (new_EZKRuntime conf_S)).1.1
  = ["withdraw route 10.0.0.2/32 next-hop self med 200";
     "announce route 10.0.0.3/32 next-hop self med 200";
     "announce route 10.0.0.1/32 next-hop self med 100"].
Proof. vm_compute. reflexivity. Qed.

(** ** Unfolding the monad *)

Lemma bind_ret_l {S A B} (m : M S A) (f : A -> M S B) (s s1 : S) t1 a :
  m s = (t1, s1, Ret a) ->
  bind m f s = (t1 ++ (f a s1).1.1, (f a s1).1.2, (f a s1).2).
Proof. unfold bind. intros ->. destruct (f a s1) as [[t2 s2] r]. reflexivity. Qed.

Lemma bind_raise_l {S A B} (m : M S A) (f : A -> M S B) (s s1 : S) t1 e :
  m s = (t1, s1, Raise e) -> bind m f s = (t1, s1, Raise e).
Proof. unfold bind. intros ->. reflexivity. Qed.

Lemma withdraw_route_mk (self : BGPSpeaker) (ip : string) (m : Z) :
  withdraw_route self (mk_route ip m) tt = (withdraw_events ip m, tt, Ret tt).
Proof. reflexivity. Qed.

Lemma add_route_mk (ip : string) (m : Z) (t : BGPTable) :
  add_route (mk_route ip m) t
  = ([Log DEBUG ("adding BGP route: " +:+ ip)],
     {| announce := announce t ++ [mk_route ip m] |}, Ret tt).
Proof. reflexivity. Qed.

Lemma lift_withdraw_mk {S} (self : BGPSpeaker) (ip : string) (m : Z) (s : S) :
  lift (withdraw_route self (mk_route ip m)) s = (withdraw_events ip m, s, Ret tt).
Proof. reflexivity. Qed.

Lemma for_each_withdraw {S} (self : BGPSpeaker) (m : Z) (ips : list string) (s : S) :
  for_each ips (fun ip => lift (withdraw_route self (mk_route ip m))) s
  = (flat_map (fun ip => withdraw_events ip m) ips, s, Ret tt).
Proof.
  induction ips as [|ip ips IH]; [reflexivity|].
  cbn [for_each flat_map].
  erewrite bind_ret_l by apply lift_withdraw_mk.
  rewrite IH. reflexivity.
Qed.

Lemma stdout_lines_app (t1 t2 : list Event) :
  stdout_lines (t1 ++ t2) = stdout_lines t1 ++ stdout_lines t2.
Proof. unfold stdout_lines. apply omap_app. Qed.

Lemma stdout_lines_flat_withdraw (m : Z) (ips : list string) :
  stdout_lines (flat_map (fun ip => withdraw_events ip m) ips)
  = map (fun ip => withdraw_line (VStr ip) (VInt m)) ips.
Proof.
  induction ips as [|ip ips IH]; [reflexivity|].
  cbn [flat_map map]. rewrite stdout_lines_app, IH. reflexivity.
Qed.

(** ** Route validation (BGPTable.add_route, BGPSpeaker.withdraw_route) *)

Lemma has_key_true (route : Route) (k : string) :
  has_key route k = true <-> is_Some (route !! k).
Proof. unfold has_key. apply bool_decide_eq_true. Qed.

Lemma has_key_false (route : Route) (k : string) :
  has_key route k = false <-> route !! k = None.
Proof.
  unfold has_key. rewrite bool_decide_eq_false, eq_None_not_Some. reflexivity.
Qed.

Lemma missing_field_true (route : Route) :
  missing_field route = true <->
  route !! "prefix" = None \/ route !! "dst" = None \/ route !! "metric" = None.
Proof.
  unfold missing_field.
  rewrite !orb_true_iff, !negb_true_iff, !has_key_false. tauto.
Qed.

Lemma missing_field_false (route : Route) :
  missing_field route = false <->
  exists p d m, route !! "prefix" = Some p /\ route !! "dst" = Some d
                /\ route !! "metric" = Some m.
Proof.
  unfold missing_field.
  rewrite !orb_false_iff, !negb_false_iff, !has_key_true.
  unfold is_Some. split.
  - intros [[[p Hp] [d Hd]] [m Hm]]. eauto 10.
  - intros (p & d & m & Hp & Hd & Hm). eauto 10.
Qed.

(** C10. [withdraw_route] validates its keyword dictionary as
    [add_route] does.  A route that lacks one of [prefix], [dst],
    [metric] makes both raise the same exception, and [withdraw_route]
    then produces no event at all (nothing reaches stdout).  A route
    that has the three fields makes [withdraw_route] print exactly one
    withdraw line, followed by a flush. *)
Theorem withdraw_route_validation (self : BGPSpeaker) (route : Route) :
  (route !! "prefix" = None \/ route !! "dst" = None \/ route !! "metric" = None ->
   withdraw_route self route tt = ([], tt, Raise (PyException mandatory_msg))
   /\ forall t : BGPTable,
        add_route route t = ([], t, Raise (PyException mandatory_msg)))
  /\
  (forall p d m,
     route !! "prefix" = Some p -> route !! "dst" = Some d ->
     route !! "metric" = Some m ->
     withdraw_route self route tt
     = ([Log DEBUG ("removing BGP route: " +:+ fmt_s p);
         Print (withdraw_line p m); Flush], tt, Ret tt)
     /\ stdout_lines (withdraw_route self route tt).1.1 = [withdraw_line p m]).
Proof.
  split.
  - intros H. apply missing_field_true in H.
    unfold withdraw_route, add_route. rewrite H. split; reflexivity.
  - intros p d m Hp Hd Hm.
    assert (Hok : missing_field route = false).
    { apply missing_field_false. eauto 10. }
    assert (E : withdraw_route self route tt
                = ([Log DEBUG ("removing BGP route: " +:+ fmt_s p);
                    Print (withdraw_line p m); Flush], tt, Ret tt)).
    { unfold withdraw_route, getitem. rewrite Hok, Hp, Hm. reflexivity. }
    rewrite E. split; reflexivity.
Qed.

(** C10 on concrete dictionaries: one without [metric], one complete. *)
Lemma withdraw_route_validation_witness :
  withdraw_route {| table := new_BGPTable |}
    (<["dst" := VStr "1.1.1.1"]> (<["prefix" := VStr "10.0.0.2"]> ∅)) tt
  = ([], tt, Raise (PyException mandatory_msg))
  /\ stdout_lines
       (withdraw_route {| table := new_BGPTable |} (mk_route "10.0.0.2" 200) tt).1.1
     = ["withdraw route 10.0.0.2/32 next-hop self med 200"].
Proof.
  split.
  - apply (withdraw_route_validation {| table := new_BGPTable |}
             (<["dst" := VStr "1.1.1.1"]> (<["prefix" := VStr "10.0.0.2"]> ∅))).
    right. right. reflexivity.
  - apply (proj2 (withdraw_route_validation {| table := new_BGPTable |}
                    (mk_route "10.0.0.2" 200))
             (VStr "10.0.0.2") (VStr "1.1.1.1") (VInt 200));
      reflexivity.
Defined.

(** ** The health probe (ServiceChecker.check) *)

Lemma check_eq (os : string -> ProbeRun) (self : ServiceChecker) :
  check os self tt =
  let p := os (command self) in
  match outcome p with
  | Exited rc =>
      if bool_decide (rc = 0) then
        (check_prologue (command self) p ++ [SignalInstall SIGALRM SIG_IGN],
         tt, Ret true)
      else
        (check_prologue (command self) p ++
           [SignalInstall SIGALRM SIG_IGN;
            Log ERROR ("local check returned: " +:+ pretty rc)],
         tt, Ret false)
  | TimedOut =>
      (check_prologue (command self) p ++
         [Log ERROR "local check spent more than 1s to run";
          Killpg (pid p) SIGKILL],
       tt, Ret false)
  end.
Proof.
  unfold check, try_except, bind, p_wait. cbn zeta.
  destruct (outcome (os (command self))) as [rc|]; [|reflexivity].
  cbn. destruct (bool_decide (rc = 0)); reflexivity.
Qed.

(** C2. [check] returns [True] exactly when the wait on the probe
    command ends with exit status 0 before the one-second alarm cuts it
    short.  In every case it first installs the SIGALRM handler, arms
    the alarm of one second and starts the command as leader of its own
    process group.  On exit status 0 it resets SIGALRM and does nothing
    else.  When the alarm fires it logs, sends SIGKILL to the process
    group of the command, once, and returns [False].  On a non-zero exit
    status it resets SIGALRM, logs the status as an error and returns
    [False], sending no signal. *)
Theorem check_spec (os : string -> ProbeRun) (self : ServiceChecker) :
  let p := os (command self) in
  let out := check os self tt in
  let start := [SignalInstall SIGALRM alarm_signal_handler; SetAlarm 1;
                Popen (command self) true (pid p)] in
  (out.2 = Ret true <-> outcome p = Exited 0)
  /\ (outcome p = Exited 0 ->
      out = (start ++ [SignalInstall SIGALRM SIG_IGN], tt, Ret true))
  /\ (outcome p = TimedOut ->
      out = (start ++ [Log ERROR "local check spent more than 1s to run";
                       Killpg (pid p) SIGKILL],
             tt, Ret false))
  /\ (forall rc, outcome p = Exited rc -> rc <> 0 ->
      out = (start ++ [SignalInstall SIGALRM SIG_IGN;
                       Log ERROR ("local check returned: " +:+ pretty rc)],
             tt, Ret false)).
Proof.
  cbn zeta. rewrite check_eq. cbn zeta.
  destruct (outcome (os (command self))) as [rc|] eqn:E.
  - case_bool_decide as Hrc.
    + subst rc. split; [split; reflexivity|].
      split; [reflexivity|]. split; [discriminate|].
      intros rc' [= <-] Hne. contradiction.
    + split; [split; [discriminate | intros [= ->]; contradiction]|].
      split; [intros [= ->]; contradiction|]. split; [discriminate|].
      intros rc' [= <-] _. reflexivity.
  - split; [split; discriminate|]. split; [discriminate|].
    split; [reflexivity | discriminate].
Qed.

(** C2 on a probe that exits 0, one that hangs and one that exits 1. *)
Lemma check_spec_witness :
  check os_pass {| command := "true" |} tt
  = ([SignalInstall SIGALRM alarm_signal_handler; SetAlarm 1; Popen "true" true 4242;
      SignalInstall SIGALRM SIG_IGN], tt, Ret true)
  /\ check os_slow {| command := "sleep 5" |} tt
     = ([SignalInstall SIGALRM alarm_signal_handler; SetAlarm 1;
         Popen "sleep 5" true 4242;
         Log ERROR "local check spent more than 1s to run";
         Killpg 4242 SIGKILL], tt, Ret false)
  /\ check os_fail {| command := "false" |} tt
     = ([SignalInstall SIGALRM alarm_signal_handler; SetAlarm 1;
         Popen "false" true 4242;
         SignalInstall SIGALRM SIG_IGN;
         Log ERROR "local check returned: 1"], tt, Ret false).
Proof.
  pose proof (check_spec os_pass {| command := "true" |}) as (_ & Hp & _ & _).
  pose proof (check_spec os_slow {| command := "sleep 5" |}) as (_ & _ & Hs & _).
  pose proof (check_spec os_fail {| command := "false" |}) as (_ & _ & _ & Hf).
  split; [exact (Hp eq_refl)|]. split; [exact (Hs eq_refl)|].
  exact (Hf 1 eq_refl ltac:(discriminate)).
Defined.

(** ** The ephemeral node (EZKRuntime.create_node) *)

Lemma create_node_eq (zk : KazooClient) (s : EZKRuntime) :
  create_node zk s =
  let path := node_path (conf s) in
  let t := [Log INFO "re-creating my ephemeral node"; ZkCreate path true] in
  match zk_create zk path true with
  | Ret _ => (t, assign_recreate false s, Ret tt)
  | Raise SessionExpiredError => (t, assign_recreate true s, Ret tt)
  | Raise e => (t, assign_recreate false s, Raise e)
  end.
Proof.
  unfold create_node, try_except, bind, call_create, get_conf, gets, modify, log, emit.
  cbn.
  destruct (zk_create zk (node_path (conf s)) true) as [p|[]]; reflexivity.
Qed.

(** C5. [create_node] clears [recreate] and then asks the ensemble to
    create the ephemeral node at [zk_path_service/srv_name/srv_auth_ip],
    once.  When the create raises [SessionExpiredError], [recreate] is
    set again and [create_node] returns normally; any other exception
    leaves [create_node] with [recreate] still cleared; a successful
    create returns with [recreate] cleared. *)
Theorem create_node_spec (zk : KazooClient) (s : EZKRuntime) :
  let path := zk_path_service (conf s) +:+ "/" +:+ srv_name (conf s)
              +:+ "/" +:+ srv_auth_ip (conf s) in
  let out := create_node zk s in
  out.1.1 = [Log INFO "re-creating my ephemeral node"; ZkCreate path true]
  /\ (forall p, zk_create zk path true = Ret p ->
      out.2 = Ret tt /\ out.1.2 = assign_recreate false s)
  /\ (zk_create zk path true = Raise SessionExpiredError ->
      out.2 = Ret tt /\ out.1.2 = assign_recreate true s)
  /\ (forall e, zk_create zk path true = Raise e -> e <> SessionExpiredError ->
      out.2 = Raise e /\ out.1.2 = assign_recreate false s).
Proof.
  cbn zeta. rewrite create_node_eq. cbn zeta.
  change (zk_path_service (conf s) +:+ "/" +:+ srv_name (conf s)
          +:+ "/" +:+ srv_auth_ip (conf s)) with (node_path (conf s)).
  destruct (zk_create zk (node_path (conf s)) true) as [p|e].
  - repeat split; try discriminate; reflexivity.
  - destruct e; (split; [reflexivity|]);
      (split; [discriminate|]);
      (split; [try discriminate; intros _; split; reflexivity|]);
      intros e' [= <-] Hne; try contradiction; split; reflexivity.
Qed.

(** C5 on a create that succeeds, one on an expired session and one
    that finds the node already there. *)
Lemma create_node_spec_witness :
  (create_node (zk_with []) (new_EZKRuntime conf_S)).1.1
  = [Log INFO "re-creating my ephemeral node";
     ZkCreate "/services/dns/10.0.0.1" true]
  /\ recreate (create_node (zk_with []) (new_EZKRuntime conf_S)).1.2 = false
  /\ (create_node zk_expired (new_EZKRuntime conf_S)).2 = Ret tt
  /\ recreate (create_node zk_expired (new_EZKRuntime conf_S)).1.2 = true
  /\ (create_node zk_node_exists (new_EZKRuntime conf_S)).2
     = Raise (ZkError "NodeExistsError").
Proof.
  pose proof (create_node_spec (zk_with []) (new_EZKRuntime conf_S)) as (H1 & H2 & _).
  pose proof (create_node_spec zk_expired (new_EZKRuntime conf_S)) as (_ & _ & H3 & _).
  pose proof (create_node_spec zk_node_exists (new_EZKRuntime conf_S)) as (_ & _ & _ & H4).
  split; [exact H1|].
  destruct (H2 _ eq_refl) as [_ E2].
  split; [rewrite E2; reflexivity|].
  destruct (H3 eq_refl) as [R3 E3].
  split; [exact R3|]. split; [rewrite E3; reflexivity|].
  destruct (H4 _ eq_refl ltac:(discriminate)) as [R4 _]. exact R4.
Defined.

(** ** The session listener (zk_transition) *)

Lemma zk_transition_SUSPENDED_eq (s : EZKRuntime) :
  zk_transition SUSPENDED s
  = (suspended_events (conf s), assign_bgp_table new_BGPTable s, Ret tt).
Proof.
  unfold zk_transition, when, suspended_events.
  rewrite (bool_decide_eq_true_2 (SUSPENDED = SUSPENDED)) by done.
  rewrite (bool_decide_eq_false_2 (SUSPENDED = LOST)) by done.
  rewrite (bool_decide_eq_false_2 (SUSPENDED = CONNECTED)) by done.
  erewrite bind_ret_l by reflexivity.
  erewrite (bind_ret_l (bind (log ERROR _) _)); cycle 1.
  { erewrite bind_ret_l by reflexivity.
    erewrite bind_ret_l by reflexivity.
    erewrite bind_ret_l by reflexivity.
    erewrite bind_ret_l by apply for_each_withdraw.
    rewrite lift_withdraw_mk. cbn [fst snd]. reflexivity. }
  cbn. rewrite !app_nil_r. reflexivity.
Qed.

(** C3. Handling a transition to SUSPENDED prints one withdraw line
    with metric 200 for each entry of [srv_non_auth_ips], in order, then
    one with metric 100 for [srv_auth_ip]; the runtime's table becomes a
    new empty table; [recreate], [shouldstop] (and [refresh], and the
    configuration) are as they were. *)
Theorem zk_transition_suspended_spec (s : EZKRuntime) :
  let out := zk_transition SUSPENDED s in
  out.2 = Ret tt
  /\ stdout_lines out.1.1
     = map (fun ip => "withdraw route " +:+ ip +:+ "/32 next-hop self med 200")
         (srv_non_auth_ips (conf s))
       ++ ["withdraw route " +:+ srv_auth_ip (conf s) +:+ "/32 next-hop self med 100"]
  /\ announce (bgp_table out.1.2) = []
  /\ recreate out.1.2 = recreate s
  /\ shouldstop out.1.2 = shouldstop s
  /\ refresh out.1.2 = refresh s
  /\ conf out.1.2 = conf s.
Proof.
  cbn zeta. rewrite zk_transition_SUSPENDED_eq. cbn [fst snd].
  repeat split.
  unfold suspended_events.
  rewrite !stdout_lines_app, stdout_lines_flat_withdraw. reflexivity.
Qed.

(** ** Reconciliation (EZKRuntime.refresh_children) *)

Lemma for_each_refresh_ip (children ips : list string) (t : BGPTable) :
  for_each ips (refresh_ip children) t
  = (refresh_events children ips,
     {| announce := announce t ++ map (fun ip => mk_route ip 200)
                                    (filter (fun ip => ip ∉ children) ips) |},
     Ret tt).
Proof.
  revert t. induction ips as [|ip ips IH]; intros t.
  - cbn. rewrite app_nil_r. destruct t; reflexivity.
  - cbn [for_each refresh_events flat_map]. unfold refresh_ip at 1.
    case_bool_decide as Hin; cbn [negb].
    + erewrite bind_ret_l by apply lift_withdraw_mk.
      rewrite IH. cbn [fst snd].
      rewrite filter_cons_False by (intros Hn; apply Hn, Hin). reflexivity.
    + erewrite bind_ret_l by apply add_route_mk.
      rewrite IH. cbn [fst snd announce].
      rewrite filter_cons_True by exact Hin.
      cbn [map]. rewrite <- app_assoc. reflexivity.
Qed.

Lemma stdout_lines_refresh_events (children ips : list string) :
  stdout_lines (refresh_events children ips)
  = map (fun ip => withdraw_line (VStr ip) (VInt 200))
        (filter (fun ip => ip ∈ children) ips).
Proof.
  induction ips as [|ip ips IH]; [reflexivity|].
  cbn [refresh_events flat_map]. rewrite stdout_lines_app.
  fold (refresh_events children ips). rewrite IH.
  case_bool_decide as Hin.
  - rewrite filter_cons_True by exact Hin. reflexivity.
  - rewrite filter_cons_False by exact Hin. reflexivity.
Qed.

Lemma refresh_children_eq (zk : KazooClient) (s : EZKRuntime) :
  refresh_children zk s =
  let c := conf s in
  let t := [Log INFO "refreshing children & routes"; ZkGetChildren (service_dir c)] in
  match zk_get_children zk (service_dir c) with
  | Ret children =>
      (t ++ refresh_events children (srv_non_auth_ips c)
         ++ [Log DEBUG ("adding BGP route: " +:+ srv_auth_ip c)],
       assign_bgp_table {| announce := spec_routes c children |}
         (assign_refresh false s),
       Ret tt)
  | Raise e => (t, assign_refresh false s, Raise e)
  end.
Proof.
  unfold refresh_children. cbn zeta.
  erewrite bind_ret_l by reflexivity.
  erewrite bind_ret_l by reflexivity.
  erewrite bind_ret_l by reflexivity.
  cbn [fst snd assign_refresh conf].
  destruct (zk_get_children zk (service_dir (conf s))) as [children|e] eqn:E.
  - erewrite (bind_ret_l (call_get_children _ _)); cycle 1.
    { unfold call_get_children. erewrite bind_ret_l by reflexivity.
      rewrite E. reflexivity. }
    erewrite (bind_ret_l (on_local _ _)); cycle 1.
    { unfold on_local.
      erewrite bind_ret_l by apply for_each_refresh_ip.
      rewrite add_route_mk. cbn [fst snd announce app]. reflexivity. }
    cbn. rewrite <- app_assoc. reflexivity.
  - erewrite (bind_raise_l (call_get_children _ _)); cycle 1.
    { unfold call_get_children. erewrite bind_ret_l by reflexivity.
      rewrite E. reflexivity. }
    reflexivity.
Qed.

Lemma mk_route_prefix (ip : string) (m : Z) :
  mk_route ip m !! "prefix" = Some (VStr ip).
Proof. reflexivity. Qed.

Lemma mk_route_metric (ip : string) (m : Z) :
  mk_route ip m !! "metric" = Some (VInt m).
Proof. reflexivity. Qed.

Lemma elem_of_spec_routes (c : EZKConf) (children : list string) (r : Route) :
  r ∈ spec_routes c children <->
  (exists ip, r = mk_route ip 200 /\ ip ∈ srv_non_auth_ips c /\ ip ∉ children)
  \/ r = mk_route (srv_auth_ip c) 100.
Proof.
  unfold spec_routes.
  rewrite elem_of_app, list_elem_of_singleton, list_elem_of_fmap.
  setoid_rewrite list_elem_of_filter.
  split; (intros [(ip & H1 & H2 & H3)|H]; [left; exists ip; tauto|right; exact H]).
Qed.

(** C4 as stated fails: with [srv_auth_ip] listed in
    [srv_non_auth_ips] and registered as a child (the node's own
    marker), the refresh withdraws 10.0.0.1 with metric 200 and still
    puts a route for 10.0.0.1 (metric 100) in the new table. *)
Lemma refresh_owned_ip_counterexample :
  let out := refresh_children (zk_with ["10.0.0.1"]) (new_EZKRuntime conf_overlap) in
  "10.0.0.1" ∈ srv_non_auth_ips conf_overlap
  /\ "10.0.0.1" ∈ ["10.0.0.1"]
  /\ out.2 = Ret tt
  /\ stdout_lines out.1.1 = ["withdraw route 10.0.0.1/32 next-hop self med 200"]
  /\ announce (bgp_table out.1.2) = [mk_route "10.0.0.2" 200; mk_route "10.0.0.1" 100]
  /\ ~ (forall r, r ∈ announce (bgp_table out.1.2) ->
                  r !! "prefix" <> Some (VStr "10.0.0.1")).
Proof.
  cbn zeta. rewrite refresh_children_eq. cbn zeta.
  change (zk_get_children (zk_with ["10.0.0.1"]) (service_dir (conf (new_EZKRuntime conf_overlap))))
    with (@Ret (list string) ["10.0.0.1"]).
  cbn [fst snd bgp_table assign_bgp_table announce].
  split; [apply list_elem_of_here|].
  split; [apply list_elem_of_here|].
  split; [reflexivity|].
  split; [vm_compute; reflexivity|].
  assert (E : spec_routes (conf (new_EZKRuntime conf_overlap)) ["10.0.0.1"]
              = [mk_route "10.0.0.2" 200; mk_route "10.0.0.1" 100]).
  { vm_compute. reflexivity. }
  split; [exact E|].
  intros H. apply (H (mk_route "10.0.0.1" 100)).
  - rewrite E. apply list_elem_of_further, list_elem_of_here.
  - reflexivity.
Qed.

(** C4, amended.  When the child list is read, each entry [ip] of
    [srv_non_auth_ips] that is a child has its line
    [withdraw route ip/32 next-hop self med 200] printed by that
    refresh, whatever the runtime held before; no metric-200 route for
    [ip] enters the new table, and a route with prefix [ip] is in the
    new table only when [ip] is [srv_auth_ip], namely its metric-100
    route. *)
Theorem refresh_withdraws_owned_ip
    (zk : KazooClient) (s : EZKRuntime) (children : list string) (ip : string) :
  zk_get_children zk (service_dir (conf s)) = Ret children ->
  ip ∈ srv_non_auth_ips (conf s) ->
  ip ∈ children ->
  let out := refresh_children zk s in
  out.2 = Ret tt
  /\ ("withdraw route " +:+ ip +:+ "/32 next-hop self med 200") ∈ stdout_lines out.1.1
  /\ (mk_route ip 200 ∉ announce (bgp_table out.1.2))
  /\ (forall r, r ∈ announce (bgp_table out.1.2) ->
                r !! "prefix" = Some (VStr ip) ->
                ip = srv_auth_ip (conf s) /\ r = mk_route ip 100).
Proof.
  intros Hget Hip Hin. cbn zeta. rewrite refresh_children_eq. cbn zeta.
  rewrite Hget. cbn [fst snd bgp_table assign_bgp_table announce].
  split; [reflexivity|]. split; [|split].
  - rewrite !stdout_lines_app, stdout_lines_refresh_events. cbn [stdout_lines omap app].
    rewrite app_nil_r.
    apply (list_elem_of_fmap_2 (fun ip => withdraw_line (VStr ip) (VInt 200))).
    apply list_elem_of_filter. split; assumption.
  - intros Hr. apply elem_of_spec_routes in Hr as [(ip' & E & _ & Hn)|E].
    + assert (ip = ip') as <-.
      { pose proof (f_equal (fun r : Route => r !! "prefix") E) as E'.
        cbn beta in E'. rewrite !mk_route_prefix in E'. congruence. }
      contradiction.
    + pose proof (f_equal (fun r : Route => r !! "metric") E) as E'.
      cbn beta in E'. rewrite !mk_route_metric in E'. discriminate.
  - intros r Hr Hp. apply elem_of_spec_routes in Hr as [(ip' & -> & _ & Hn) | ->].
    + rewrite mk_route_prefix in Hp. injection Hp as ->. contradiction.
    + rewrite mk_route_prefix in Hp. injection Hp as <-. split; reflexivity.
Qed.

(** C4 (amended) on scenario S2: 10.0.0.2 is owned by a peer. *)
Lemma refresh_withdraws_owned_ip_witness :
  "withdraw route 10.0.0.2/32 next-hop self med 200"
    ∈ stdout_lines (refresh_children (zk_with ["10.0.0.2"]) (new_EZKRuntime conf_S)).1.1
  /\ mk_route "10.0.0.2" 200
       ∉ announce (bgp_table (refresh_children (zk_with ["10.0.0.2"])
                                (new_EZKRuntime conf_S)).1.2).
Proof.
  assert (H1 : "10.0.0.2" ∈ srv_non_auth_ips (conf (new_EZKRuntime conf_S))).
  { apply list_elem_of_here. }
  assert (H2 : "10.0.0.2" ∈ ["10.0.0.2"]).
  { apply list_elem_of_here. }
  destruct (refresh_withdraws_owned_ip (zk_with ["10.0.0.2"]) (new_EZKRuntime conf_S)
              ["10.0.0.2"] "10.0.0.2" eq_refl H1 H2) as (_ & Hw & Hn & _).
  split; [exact Hw | exact Hn].
Defined.

(** ** Emission (BGPSpeaker.advertise_routes) *)

Lemma for_each_app {S A} (l1 l2 : list A) (body : A -> M S unit) (s s1 : S) t1 :
  for_each l1 body s = (t1, s1, Ret tt) ->
  for_each (l1 ++ l2) body s
  = (t1 ++ (for_each l2 body s1).1.1, (for_each l2 body s1).1.2,
     (for_each l2 body s1).2).
Proof.
  revert s t1. induction l1 as [|x l1 IH]; intros s t1 H.
  - cbn in H. injection H as <- <-. cbn [app].
    destruct (for_each l2 body s) as [[t2 s2] r]. reflexivity.
  - cbn [app for_each] in *. unfold bind in *.
    destruct (body x s) as [[tx sx] [[]|e]]; [|discriminate].
    destruct (for_each l1 body sx) as [[tl sl] rl] eqn:E.
    destruct rl as [[]|e]; [|discriminate].
    injection H as <- <-.
    rewrite (IH sx tl E).
    rewrite app_assoc. reflexivity.
Qed.

Lemma for_each_announce_mk (m : Z) (ips : list string) :
  for_each (map (fun ip => mk_route ip m) ips) announce_body tt
  = (map (fun ip => Print (announce_line (VStr ip) (VInt m))) ips, tt, Ret tt).
Proof.
  induction ips as [|ip ips IH]; [reflexivity|].
  cbn [map for_each].
  erewrite bind_ret_l by reflexivity. rewrite IH. reflexivity.
Qed.

Lemma advertise_spec_routes (c : EZKConf) (children : list string) :
  advertise_routes {| table := {| announce := spec_routes c children |} |} tt
  = (Log INFO "advertising routes"
       :: map Print (spec_announce_lines c children) ++ [Flush],
     tt, Ret tt).
Proof.
  unfold advertise_routes, get_routes. cbn [table announce].
  erewrite bind_ret_l by reflexivity.
  fold announce_body. unfold spec_routes.
  erewrite bind_ret_l; cycle 1.
  { erewrite for_each_app by apply for_each_announce_mk. reflexivity. }
  cbn [fst snd]. unfold spec_announce_lines.
  rewrite map_app, map_map. cbn. rewrite <- !app_assoc. reflexivity.
Qed.

Lemma stdout_lines_map_Print (ls : list string) :
  stdout_lines (map Print ls) = ls.
Proof. induction ls as [|l ls IH]; [reflexivity|]. cbn. f_equal. exact IH. Qed.

(** ** One turn of the main loop *)

Lemma loop_body_stop (os : string -> ProbeRun) (zk : KazooClient) (s : EZKRuntime) :
  shouldstop s = true -> loop_body os zk s = ([], s, Ret Break).
Proof.
  intros H. unfold loop_body, bind, get_shouldstop, gets. rewrite H. reflexivity.
Qed.

Lemma loop_body_probe_failed
    (os : string -> ProbeRun) (zk : KazooClient) (s : EZKRuntime) t0 :
  shouldstop s = false ->
  check os {| command := local_check (conf s) |} tt = (t0, tt, Ret false) ->
  loop_body os zk s = (t0, s, Ret Next).
Proof.
  intros Hs Hc.
  unfold loop_body, bind, get_shouldstop, get_conf, gets, lift.
  rewrite Hs, Hc. cbn. rewrite app_nil_r. reflexivity.
Qed.

Lemma loop_body_probe_passed
    (os : string -> ProbeRun) (zk : KazooClient) (s : EZKRuntime) t0 :
  shouldstop s = false ->
  check os {| command := local_check (conf s) |} tt = (t0, tt, Ret true) ->
  loop_body os zk s =
  match when (recreate s) (create_node zk) s with
  | (t1, s1, Raise e) => (t0 ++ t1, s1, Raise e)
  | (t1, s1, Ret _) =>
      (t0 ++ t1 ++ (turn_tail zk s1).1.1, (turn_tail zk s1).1.2, (turn_tail zk s1).2)
  end.
Proof.
  intros Hs Hc.
  unfold loop_body, turn_tail, bind, get_shouldstop, get_conf, get_recreate,
    get_refresh, get_bgp_table, gets, lift.
  rewrite Hs, Hc. cbn [negb app].
  destruct (when (recreate s) (create_node zk) s) as [[t1 s1] [[]|e]]; [|reflexivity].
  destruct (when (refresh s1) (refresh_children zk) s1) as [[t2 s2] [[]|e]];
    [|cbn [app fst snd]; reflexivity].
  destruct (advertise_routes {| table := bgp_table s2 |} tt) as [[t3 []] [[]|e]];
    cbn [app ret fst snd]; rewrite ?app_nil_r; reflexivity.
Qed.

Lemma check_pass (os : string -> ProbeRun) (self : ServiceChecker) :
  outcome (os (command self)) = Exited 0 ->
  check os self tt
  = (check_pass_events (command self) (os (command self)), tt, Ret true).
Proof. intros H. rewrite check_eq. cbn zeta. rewrite H. reflexivity. Qed.

Lemma check_fail (os : string -> ProbeRun) (self : ServiceChecker) :
  outcome (os (command self)) <> Exited 0 ->
  exists t0, check os self tt = (t0, tt, Ret false)
             /\ Forall (fun e => match e with
                                 | Print _ | Flush | ZkCreate _ _ | ZkGetChildren _ => False
                                 | _ => True
                                 end) t0.
Proof.
  intros H. rewrite check_eq. cbn zeta.
  destruct (outcome (os (command self))) as [rc|].
  - case_bool_decide as Hrc; [subst rc; contradiction|].
    eexists. split; [reflexivity|]. unfold check_prologue. cbn.
    repeat constructor.
  - eexists. split; [reflexivity|]. unfold check_prologue. cbn.
    repeat constructor.
Qed.

Lemma assign_recreate_same (s : EZKRuntime) : assign_recreate (recreate s) s = s.
Proof. destruct s; reflexivity. Qed.

(** The [recreate] step of a turn. *)
Lemma create_phase_eq (zk : KazooClient) (s : EZKRuntime) :
  when (recreate s) (create_node zk) s =
  if recreate s then
    match zk_create zk (node_path (conf s)) true with
    | Ret _ => (create_events (conf s), assign_recreate false s, Ret tt)
    | Raise SessionExpiredError => (create_events (conf s), assign_recreate true s, Ret tt)
    | Raise e => (create_events (conf s), assign_recreate false s, Raise e)
    end
  else ([], s, Ret tt).
Proof.
  unfold when. destruct (recreate s); [|reflexivity].
  rewrite create_node_eq. reflexivity.
Qed.

Lemma create_phase_ok (zk : KazooClient) (s : EZKRuntime) :
  (recreate s = true -> fatal_create zk (conf s) = false) ->
  exists b,
    when (recreate s) (create_node zk) s
    = (if recreate s then create_events (conf s) else [], assign_recreate b s, Ret tt).
Proof.
  intros H. rewrite create_phase_eq. unfold fatal_create in H.
  destruct (recreate s) eqn:Er.
  - specialize (H eq_refl).
    destruct (zk_create zk (node_path (conf s)) true) as [p|[]];
      try discriminate H; eexists; reflexivity.
  - exists false. rewrite <- Er, assign_recreate_same. reflexivity.
Qed.

(** A whole turn in which the probe passes, the create (if any) does
    not abort and the child list is read. *)
Lemma loop_body_refresh_eq
    (os : string -> ProbeRun) (zk : KazooClient) (s : EZKRuntime)
    (children : list string) :
  shouldstop s = false ->
  outcome (os (local_check (conf s))) = Exited 0 ->
  (recreate s = true -> fatal_create zk (conf s) = false) ->
  refresh s = true ->
  zk_get_children zk (service_dir (conf s)) = Ret children ->
  exists b,
    loop_body os zk s
    = (check_pass_events (local_check (conf s)) (os (local_check (conf s)))
         ++ (if recreate s then create_events (conf s) else [])
         ++ reconcile_events (conf s) children
         ++ advertise_events (conf s) children,
       assign_bgp_table {| announce := spec_routes (conf s) children |}
         (assign_refresh false (assign_recreate b s)),
       Ret Next).
Proof.
  intros Hs Hp Hc Hr Hg.
  destruct (create_phase_ok zk s Hc) as [b Hb]. exists b.
  rewrite (loop_body_probe_passed os zk s _ Hs
             (check_pass os {| command := local_check (conf s) |} Hp)).
  rewrite Hb. unfold turn_tail. cbn [refresh assign_recreate]. rewrite Hr. unfold when.
  rewrite refresh_children_eq. cbn zeta. cbn [conf assign_recreate].
  rewrite Hg. cbn [bgp_table assign_bgp_table].
  rewrite advertise_spec_routes. reflexivity.
Qed.

Lemma stdout_lines_check_pass cmd p : stdout_lines (check_pass_events cmd p) = [].
Proof. reflexivity. Qed.

Lemma stdout_lines_create (b : bool) (c : EZKConf) :
  stdout_lines (if b then create_events c else []) = [].
Proof. destruct b; reflexivity. Qed.

Lemma stdout_lines_reconcile (c : EZKConf) (children : list string) :
  stdout_lines (reconcile_events c children)
  = map (fun ip => "withdraw route " +:+ ip +:+ "/32 next-hop self med 200")
        (filter (fun ip => ip ∈ children) (srv_non_auth_ips c)).
Proof.
  unfold reconcile_events.
  rewrite !stdout_lines_app, stdout_lines_refresh_events. cbn.
  rewrite app_nil_r. reflexivity.
Qed.

Lemma stdout_lines_advertise (c : EZKConf) (children : list string) :
  stdout_lines (advertise_events c children) = spec_announce_lines c children.
Proof.
  unfold advertise_events. change (Log INFO "advertising routes" :: ?l) with
    ([Log INFO "advertising routes"] ++ l).
  rewrite !stdout_lines_app, stdout_lines_map_Print. cbn.
  rewrite app_nil_r. reflexivity.
Qed.

(** C1. In a turn of the loop whose probe passes and that refreshes
    with child list [children], the table installed holds, in the order
    of [srv_non_auth_ips], one metric-200 route per entry that is not a
    child, then the metric-100 route of [srv_auth_ip] as last entry, and
    nothing else.  What the turn prints is the withdraw lines of the
    refresh followed by one announce line per route of that table, in
    table order, the line of [srv_auth_ip] last. *)
Theorem refresh_table_and_emission
    (os : string -> ProbeRun) (zk : KazooClient) (s : EZKRuntime)
    (children : list string) :
  shouldstop s = false ->
  outcome (os (local_check (conf s))) = Exited 0 ->
  (recreate s = true -> fatal_create zk (conf s) = false) ->
  refresh s = true ->
  zk_get_children zk (service_dir (conf s)) = Ret children ->
  let out := loop_body os zk s in
  let absent := filter (fun ip => ip ∉ children) (srv_non_auth_ips (conf s)) in
  let owned := filter (fun ip => ip ∈ children) (srv_non_auth_ips (conf s)) in
  out.2 = Ret Next
  /\ announce (bgp_table out.1.2)
     = map (fun ip => mk_route ip 200) absent ++ [mk_route (srv_auth_ip (conf s)) 100]
  /\ stdout_lines out.1.1
     = map (fun ip => "withdraw route " +:+ ip +:+ "/32 next-hop self med 200") owned
       ++ map (fun ip => "announce route " +:+ ip +:+ "/32 next-hop self med 200") absent
       ++ ["announce route " +:+ srv_auth_ip (conf s) +:+ "/32 next-hop self med 100"]
  /\ exists pre,
       out.1.1 = pre ++ Log INFO "advertising routes"
                   :: map Print
                        (map (fun ip => "announce route " +:+ ip
                                        +:+ "/32 next-hop self med 200") absent
                         ++ ["announce route " +:+ srv_auth_ip (conf s)
                             +:+ "/32 next-hop self med 100"])
                   ++ [Flush].
Proof.
  intros Hs Hp Hc Hr Hg. cbn zeta.
  destruct (loop_body_refresh_eq os zk s children Hs Hp Hc Hr Hg) as [b ->].
  cbn [fst snd bgp_table assign_bgp_table announce].
  split; [reflexivity|]. split; [reflexivity|]. split.
  - rewrite !stdout_lines_app, stdout_lines_check_pass, stdout_lines_create,
      stdout_lines_reconcile, stdout_lines_advertise.
    reflexivity.
  - eexists. rewrite !app_assoc. reflexivity.
Qed.

(** C1 on scenario S2: 10.0.0.2 is owned by a peer. *)
Lemma refresh_table_and_emission_witness :
  let out := loop_body os_pass (zk_with ["10.0.0.2"]) (new_EZKRuntime conf_S) in
  announce (bgp_table out.1.2) = [mk_route "10.0.0.3" 200; mk_route "10.0.0.1" 100]
  /\ stdout_lines out.1.1
     = ["withdraw route 10.0.0.2/32 next-hop self med 200";
        "announce route 10.0.0.3/32 next-hop self med 200";
        "announce route 10.0.0.1/32 next-hop self med 100"].
Proof.
  destruct (refresh_table_and_emission os_pass (zk_with ["10.0.0.2"])
              (new_EZKRuntime conf_S) ["10.0.0.2"]
              eq_refl eq_refl (fun _ => eq_refl) eq_refl eq_refl)
    as (_ & Ht & Hl & _).
  split.
  - etransitivity; [exact Ht|]. vm_compute. reflexivity.
  - etransitivity; [exact Hl|]. vm_compute. reflexivity.
Defined.

(** C7. A turn whose probe fails prints nothing on stdout, makes no
    ZooKeeper call (no create, no reconciliation) and leaves the
    runtime (both flags, the table) exactly as it was; the loop goes on
    with its next turn. *)
Theorem failed_probe_turn
    (os : string -> ProbeRun) (zk : KazooClient) (s : EZKRuntime) :
  shouldstop s = false ->
  outcome (os (local_check (conf s))) <> Exited 0 ->
  let out := loop_body os zk s in
  out.2 = Ret Next
  /\ out.1.2 = s
  /\ refresh out.1.2 = refresh s
  /\ recreate out.1.2 = recreate s
  /\ stdout_lines out.1.1 = []
  /\ (forall p b, ZkCreate p b ∉ out.1.1)
  /\ (forall p, ZkGetChildren p ∉ out.1.1).
Proof.
  intros Hs Hp. cbn zeta.
  destruct (check_fail os {| command := local_check (conf s) |} Hp) as (t0 & Hc & Hall).
  rewrite (loop_body_probe_failed os zk s t0 Hs Hc). cbn [fst snd].
  repeat split.
  - clear Hc. induction Hall as [|e t He Hall IH]; [reflexivity|].
    destruct e; try contradiction; exact IH.
  - intros p b Hin. rewrite Forall_forall in Hall. exact (Hall _ Hin).
  - intros p Hin. rewrite Forall_forall in Hall. exact (Hall _ Hin).
Qed.

(** C7 on scenario S3, from the state of a fresh start. *)
Lemma failed_probe_turn_witness :
  (loop_body os_fail (zk_with []) (new_EZKRuntime conf_S)).1.2 = new_EZKRuntime conf_S
  /\ stdout_lines (loop_body os_slow (zk_with []) (new_EZKRuntime conf_S)).1.1 = [].
Proof.
  split.
  - apply (failed_probe_turn os_fail (zk_with []) (new_EZKRuntime conf_S)
             eq_refl ltac:(discriminate)).
  - apply (failed_probe_turn os_slow (zk_with []) (new_EZKRuntime conf_S)
             eq_refl ltac:(discriminate)).
Defined.

(** ** The two steps of a healthy turn *)

Lemma turn_tail_eq (zk : KazooClient) (s1 : EZKRuntime) :
  turn_tail zk s1 =
  if refresh s1 then
    match zk_get_children zk (service_dir (conf s1)) with
    | Ret children =>
        (reconcile_events (conf s1) children ++ advertise_events (conf s1) children,
         assign_bgp_table {| announce := spec_routes (conf s1) children |}
           (assign_refresh false s1),
         Ret Next)
    | Raise e =>
        ([Log INFO "refreshing children & routes"; ZkGetChildren (service_dir (conf s1))],
         assign_refresh false s1, Raise e)
    end
  else
    match advertise_routes {| table := bgp_table s1 |} tt with
    | (t3, _, Ret _) => (t3, s1, Ret Next)
    | (t3, _, Raise e) => (t3, s1, Raise e)
    end.
Proof.
  unfold turn_tail, when. destruct (refresh s1).
  - rewrite refresh_children_eq. cbn zeta.
    destruct (zk_get_children zk (service_dir (conf s1))) as [children|e];
      [|reflexivity].
    cbn [bgp_table assign_bgp_table]. rewrite advertise_spec_routes. reflexivity.
  - cbn [ret app]. reflexivity.
Qed.

Lemma turn_tail_state (zk : KazooClient) (s1 : EZKRuntime) :
  let s2 := (turn_tail zk s1).1.2 in
  conf s2 = conf s1 /\ recreate s2 = recreate s1 /\ shouldstop s2 = shouldstop s1
  /\ (bgp_table s2 = bgp_table s1
      \/ exists children,
           zk_get_children zk (service_dir (conf s1)) = Ret children
           /\ bgp_table s2 = {| announce := spec_routes (conf s1) children |}).
Proof.
  cbn zeta. rewrite turn_tail_eq. destruct (refresh s1).
  - destruct (zk_get_children zk (service_dir (conf s1))) as [children|e] eqn:E;
      cbn [fst snd]; repeat split; eauto.
  - destruct (advertise_routes _ tt) as [[t3 []] [[]|e]]; cbn [fst snd];
      repeat split; eauto.
Qed.

Lemma turn_tail_starts_with_read (zk : KazooClient) (s1 : EZKRuntime) :
  refresh s1 = true ->
  exists rest,
    (turn_tail zk s1).1.1
    = Log INFO "refreshing children & routes"
        :: ZkGetChildren (service_dir (conf s1)) :: rest.
Proof.
  intros Hr. rewrite turn_tail_eq, Hr.
  destruct (zk_get_children zk (service_dir (conf s1))) as [children|e];
    cbn [fst snd]; eexists; reflexivity.
Qed.

(** A healthy turn whose create raises for good. *)
Lemma loop_body_fatal_create
    (os : string -> ProbeRun) (zk : KazooClient) (s : EZKRuntime) (e : Exn) :
  shouldstop s = false ->
  outcome (os (local_check (conf s))) = Exited 0 ->
  recreate s = true ->
  zk_create zk (node_path (conf s)) true = Raise e ->
  e <> SessionExpiredError ->
  loop_body os zk s
  = (check_pass_events (local_check (conf s)) (os (local_check (conf s)))
       ++ create_events (conf s),
     assign_recreate false s, Raise e).
Proof.
  intros Hs Hp Hr Hc He.
  rewrite (loop_body_probe_passed os zk s _ Hs
             (check_pass os {| command := local_check (conf s) |} Hp)).
  rewrite create_phase_eq, Hr, Hc.
  destruct e; try reflexivity. contradiction.
Qed.

(** A healthy turn whose create returns ([b] is [false]) or finds the
    session expired ([b] is [true]). *)
Lemma loop_body_create_returns
    (os : string -> ProbeRun) (zk : KazooClient) (s : EZKRuntime) (b : bool) :
  shouldstop s = false ->
  outcome (os (local_check (conf s))) = Exited 0 ->
  recreate s = true ->
  (if b then zk_create zk (node_path (conf s)) true = Raise SessionExpiredError
   else exists p, zk_create zk (node_path (conf s)) true = Ret p) ->
  loop_body os zk s
  = (check_pass_events (local_check (conf s)) (os (local_check (conf s)))
       ++ create_events (conf s) ++ (turn_tail zk (assign_recreate b s)).1.1,
     (turn_tail zk (assign_recreate b s)).1.2,
     (turn_tail zk (assign_recreate b s)).2).
Proof.
  intros Hs Hp Hr Hc.
  rewrite (loop_body_probe_passed os zk s _ Hs
             (check_pass os {| command := local_check (conf s) |} Hp)).
  rewrite create_phase_eq, Hr.
  destruct b; [rewrite Hc; reflexivity|].
  destruct Hc as [p ->]. reflexivity.
Qed.

(** ** Order of the two flags in a turn *)

Lemma zk_transition_LOST_eq (s : EZKRuntime) :
  zk_transition LOST s
  = ([Log INFO "zk state changed to LOST";
      Log ERROR "zk lost, have to re-create ephemeral node"],
     assign_recreate true s, Ret tt).
Proof. reflexivity. Qed.

Lemma zk_transition_CONNECTED_eq (s : EZKRuntime) :
  zk_transition CONNECTED s
  = ([Log INFO "zk state changed to CONNECTED"], assign_refresh true s, Ret tt).
Proof. reflexivity. Qed.




(** ** Consecutive turns *)

Lemma create_phase_shape (zk : KazooClient) (s : EZKRuntime) :
  exists b r,
    when (recreate s) (create_node zk) s
    = (if recreate s then create_events (conf s) else [], assign_recreate b s, r).
Proof.
  rewrite create_phase_eq.
  destruct (recreate s) eqn:Er.
  - destruct (zk_create zk (node_path (conf s)) true) as [p|[]];
      do 2 eexists; reflexivity.
  - exists false, (Ret tt). rewrite <- Er, assign_recreate_same. reflexivity.
Qed.

Lemma turn_tail_Next (zk : KazooClient) (s1 : EZKRuntime) (children : list string) :
  zk_get_children zk (service_dir (conf s1)) = Ret children ->
  (turn_tail zk s1).2 = Ret Next ->
  turn_tail zk s1
  = ((if refresh s1 then reconcile_events (conf s1) children else [])
       ++ (advertise_routes {| table := bgp_table (after_refresh children s1) |} tt).1.1,
     after_refresh children s1, Ret Next).
Proof.
  intros Hg. unfold turn_tail, after_refresh, when.
  destruct (refresh s1).
  - rewrite refresh_children_eq. cbn zeta. rewrite Hg.
    destruct (advertise_routes _ tt) as [[t3 []] [[]|e]]; cbn [fst snd];
      [reflexivity | discriminate].
  - cbn [ret app].
    destruct (advertise_routes _ tt) as [[t3 []] [[]|e]]; cbn [fst snd];
      [reflexivity | discriminate].
Qed.

(** A turn that is not stopped, whose probe passes, whose child list
    is [children] and that runs to its end. *)
Lemma loop_body_Next
    (os : string -> ProbeRun) (zk : KazooClient) (s : EZKRuntime)
    (children : list string) :
  outcome (os (local_check (conf s))) = Exited 0 ->
  zk_get_children zk (service_dir (conf s)) = Ret children ->
  (loop_body os zk s).2 = Ret Next ->
  exists b,
    loop_body os zk s
    = (check_pass_events (local_check (conf s)) (os (local_check (conf s)))
         ++ (if recreate s then create_events (conf s) else [])
         ++ (if refresh s then reconcile_events (conf s) children else [])
         ++ (advertise_routes
               {| table := bgp_table (after_refresh children (assign_recreate b s)) |}
               tt).1.1,
       after_refresh children (assign_recreate b s), Ret Next).
Proof.
  intros Hp Hg Hn.
  destruct (shouldstop s) eqn:Hs.
  { rewrite (loop_body_stop os zk s Hs) in Hn. discriminate. }
  rewrite (loop_body_probe_passed os zk s _ Hs
             (check_pass os {| command := local_check (conf s) |} Hp)) in Hn |- *.
  destruct (create_phase_shape zk s) as (b & r & Hc). rewrite Hc in Hn |- *.
  destruct r as [[]|e]; [|discriminate].
  cbn [snd] in Hn. exists b.
  rewrite (turn_tail_Next zk (assign_recreate b s) children Hg Hn). reflexivity.
Qed.

Lemma after_refresh_facts (children : list string) (s1 : EZKRuntime) :
  conf (after_refresh children s1) = conf s1
  /\ refresh (after_refresh children s1) = false
  /\ recreate (after_refresh children s1) = recreate s1
  /\ shouldstop (after_refresh children s1) = shouldstop s1.
Proof.
  unfold after_refresh. destruct (refresh s1) eqn:E; cbn; auto.
Qed.

(** C6 as stated fails: from a fresh start, with 10.0.0.2 owned by a
    peer, the first healthy turn prints the withdraw line of the refresh
    and two announce lines; the next healthy turn, with the same child
    list, prints the two announce lines only. *)
Lemma consecutive_turns_counterexample :
  let zk := zk_with ["10.0.0.2"] in
  let out1 := loop_body os_pass zk (new_EZKRuntime conf_S) in
  let out2 := loop_body os_pass zk out1.1.2 in
  out1.2 = Ret Next /\ out2.2 = Ret Next
  /\ stdout_lines out1.1.1
     = ["withdraw route 10.0.0.2/32 next-hop self med 200";
        "announce route 10.0.0.3/32 next-hop self med 200";
        "announce route 10.0.0.1/32 next-hop self med 100"]
  /\ stdout_lines out2.1.1
     = ["announce route 10.0.0.3/32 next-hop self med 200";
        "announce route 10.0.0.1/32 next-hop self med 100"]
  /\ stdout_lines out1.1.1 <> stdout_lines out2.1.1.
Proof.
  cbn zeta.
  assert (E1 : stdout_lines (loop_body os_pass (zk_with ["10.0.0.2"])
                               (new_EZKRuntime conf_S)).1.1
               = ["withdraw route 10.0.0.2/32 next-hop self med 200";
                  "announce route 10.0.0.3/32 next-hop self med 200";
                  "announce route 10.0.0.1/32 next-hop self med 100"]).
  { vm_compute. reflexivity. }
  assert (E2 : stdout_lines
                 (loop_body os_pass (zk_with ["10.0.0.2"])
                    (loop_body os_pass (zk_with ["10.0.0.2"])
                       (new_EZKRuntime conf_S)).1.2).1.1
               = ["announce route 10.0.0.3/32 next-hop self med 200";
                  "announce route 10.0.0.1/32 next-hop self med 100"]).
  { vm_compute. reflexivity. }
  split; [vm_compute; reflexivity|].
  split; [vm_compute; reflexivity|].
  split; [exact E1|]. split; [exact E2|].
  rewrite E1, E2. discriminate.
Qed.

(** C6, amended.  Two turns in a row (the second starts in the state
    the first left), both with a passing probe and the same child list,
    both run to their end: both end with the same batch, the one
    [advertise_routes] writes for the table the first turn left.  The
    second turn prints nothing else; the first prints before it the
    withdraw lines of its refresh, if its [refresh] flag was set.  So
    the printed lines of the two turns are the same when the first does
    not refresh. *)
Theorem consecutive_turns_same_batch
    (os1 os2 : string -> ProbeRun) (zk1 zk2 : KazooClient) (s : EZKRuntime)
    (children : list string) :
  outcome (os1 (local_check (conf s))) = Exited 0 ->
  outcome (os2 (local_check (conf s))) = Exited 0 ->
  zk_get_children zk1 (service_dir (conf s)) = Ret children ->
  zk_get_children zk2 (service_dir (conf s)) = Ret children ->
  let out1 := loop_body os1 zk1 s in
  let out2 := loop_body os2 zk2 out1.1.2 in
  out1.2 = Ret Next ->
  out2.2 = Ret Next ->
  (exists pre1 pre2 batch,
     out1.1.1 = pre1 ++ batch
     /\ out2.1.1 = pre2 ++ batch
     /\ batch = (advertise_routes {| table := bgp_table out1.1.2 |} tt).1.1
     /\ stdout_lines pre1
        = (if refresh s then
             map (fun ip => "withdraw route " +:+ ip +:+ "/32 next-hop self med 200")
               (filter (fun ip => ip ∈ children) (srv_non_auth_ips (conf s)))
           else [])
     /\ stdout_lines pre2 = [])
  /\ bgp_table out2.1.2 = bgp_table out1.1.2
  /\ (refresh s = false -> stdout_lines out1.1.1 = stdout_lines out2.1.1).
Proof.
  intros Hp1 Hp2 Hg1 Hg2. cbn zeta. intros Hn1.
  destruct (loop_body_Next os1 zk1 s children Hp1 Hg1 Hn1) as [b E1].
  rewrite E1. cbn [fst snd].
  set (s2 := after_refresh children (assign_recreate b s)).
  destruct (after_refresh_facts children (assign_recreate b s))
    as (Hconf & Hrefresh & _ & _).
  fold s2 in Hconf, Hrefresh. cbn [conf assign_recreate] in Hconf.
  intros Hn2.
  assert (Hp2' : outcome (os2 (local_check (conf s2))) = Exited 0)
    by (rewrite Hconf; exact Hp2).
  assert (Hg2' : zk_get_children zk2 (service_dir (conf s2)) = Ret children)
    by (rewrite Hconf; exact Hg2).
  destruct (loop_body_Next os2 zk2 s2 children Hp2' Hg2' Hn2) as [b' E2].
  rewrite E2. cbn [fst snd].
  assert (Hs3 : after_refresh children (assign_recreate b' s2) = assign_recreate b' s2).
  { unfold after_refresh. cbn [refresh assign_recreate]. rewrite Hrefresh. reflexivity. }
  rewrite Hs3, Hrefresh. cbn [bgp_table assign_recreate].
  set (batch := (advertise_routes {| table := bgp_table s2 |} tt).1.1).
  set (t0 := check_pass_events _ _).
  set (t0' := check_pass_events _ _).
  assert (Hpre1 : stdout_lines
                    (t0 ++ (if recreate s then create_events (conf s) else [])
                        ++ (if refresh s then reconcile_events (conf s) children else []))
                  = (if refresh s then
                       map (fun ip => "withdraw route " +:+ ip
                                      +:+ "/32 next-hop self med 200")
                         (filter (fun ip => ip ∈ children) (srv_non_auth_ips (conf s)))
                     else [])).
  { rewrite !stdout_lines_app, stdout_lines_create.
    subst t0. rewrite stdout_lines_check_pass.
    destruct (refresh s); [apply stdout_lines_reconcile | reflexivity]. }
  assert (Hpre2 : stdout_lines
                    (t0' ++ (if recreate s2 then create_events (conf s2) else []))
                  = []).
  { rewrite stdout_lines_app, stdout_lines_create. reflexivity. }
  split; [|split].
  - exists (t0 ++ (if recreate s then create_events (conf s) else [])
               ++ (if refresh s then reconcile_events (conf s) children else [])),
           (t0' ++ (if recreate s2 then create_events (conf s2) else [])), batch.
    split; [rewrite <- !app_assoc; reflexivity|].
    split; [rewrite <- !app_assoc; reflexivity|].
    split; [reflexivity|]. split; [exact Hpre1 | exact Hpre2].
  - reflexivity.
  - intros Hr.
    transitivity (stdout_lines batch).
    + rewrite !app_assoc, stdout_lines_app, <- !app_assoc, Hpre1, Hr. reflexivity.
    + cbn [app]. rewrite !app_assoc, stdout_lines_app, Hpre2. reflexivity.
Qed.

(** C6 (amended) on scenario S2 run for two turns. *)
Lemma consecutive_turns_same_batch_witness :
  let zk := zk_with ["10.0.0.2"] in
  let out1 := loop_body os_pass zk (new_EZKRuntime conf_S) in
  let out2 := loop_body os_pass zk out1.1.2 in
  exists pre1 pre2 batch,
    out1.1.1 = pre1 ++ batch /\ out2.1.1 = pre2 ++ batch
    /\ stdout_lines pre1 = ["withdraw route 10.0.0.2/32 next-hop self med 200"]
    /\ stdout_lines pre2 = [].
Proof.
  cbn zeta.
  destruct (consecutive_turns_same_batch os_pass os_pass
              (zk_with ["10.0.0.2"]) (zk_with ["10.0.0.2"])
              (new_EZKRuntime conf_S) ["10.0.0.2"]
              eq_refl eq_refl eq_refl eq_refl
              ltac:(vm_compute; reflexivity) ltac:(vm_compute; reflexivity))
    as ((pre1 & pre2 & batch & H1 & H2 & _ & H3 & H4) & _).
  exists pre1, pre2, batch.
  split; [exact H1|]. split; [exact H2|]. split; [|exact H4].
  etransitivity; [exact H3|]. vm_compute. reflexivity.
Defined.

(** ** The first turns of a run *)

Lemma stdout_lines_quiet (t : list Event) : Forall quiet t -> stdout_lines t = [].
Proof.
  induction 1 as [|e t He _ IH]; [reflexivity|].
  destruct e; try contradiction; exact IH.
Qed.

Lemma main_loop_cons (w : World) (rest : list World) :
  main_loop (w :: rest)
  = bind get_shouldstop (fun stop =>
      if stop then ret tt
      else bind (loop_body (w_os w) (w_zk w))
             (fun c => match c with Break => ret tt | Next => main_loop rest end)).
Proof. reflexivity. Qed.

Lemma main_loop_failed_turns (failing rest : list World) (s : EZKRuntime) :
  shouldstop s = false ->
  Forall (fun w => outcome (w_os w (local_check (conf s))) <> Exited 0) failing ->
  exists t,
    Forall quiet t
    /\ main_loop (failing ++ rest) s
       = (t ++ (main_loop rest s).1.1, (main_loop rest s).1.2, (main_loop rest s).2).
Proof.
  intros Hs Hall. induction Hall as [|w failing Hw _ IH].
  - exists []. split; [constructor|].
    cbn [app]. destruct (main_loop rest s) as [[t s'] r]. reflexivity.
  - destruct IH as (t & Hq & IH).
    destruct (check_fail (w_os w) {| command := local_check (conf s) |} Hw)
      as (t0 & Hc & Hq0).
    exists (t0 ++ t). split; [apply Forall_app; split; assumption|].
    rewrite <- app_comm_cons, main_loop_cons.
    erewrite bind_ret_l by reflexivity. cbn [fst snd]. rewrite Hs.
    erewrite bind_ret_l by (apply (loop_body_probe_failed _ _ s t0 Hs Hc)).
    cbn beta iota. rewrite IH. cbn [fst snd app]. rewrite app_assoc. reflexivity.
Qed.

Lemma main_loop_one_turn (w : World) (s : EZKRuntime) :
  shouldstop s = false ->
  (main_loop [w] s).1.1 = (loop_body (w_os w) (w_zk w) s).1.1
  /\ (main_loop [w] s).1.2 = (loop_body (w_os w) (w_zk w) s).1.2.
Proof.
  intros Hs. rewrite main_loop_cons.
  erewrite bind_ret_l by reflexivity. cbn [fst snd]. rewrite Hs.
  unfold bind.
  destruct (loop_body (w_os w) (w_zk w) s) as [[t1 s1] [[]|e]]; cbn;
    rewrite ?app_nil_r; split; reflexivity.
Qed.

Lemma turn_tail_refresh_cleared (zk : KazooClient) (s1 : EZKRuntime) :
  refresh s1 = true -> refresh (turn_tail zk s1).1.2 = false.
Proof.
  intros Hr. unfold turn_tail, when. rewrite Hr, refresh_children_eq. cbn zeta.
  destruct (zk_get_children zk (service_dir (conf s1))) as [children|e].
  - destruct (advertise_routes _ tt) as [[t3 []] [[]|e]]; reflexivity.
  - reflexivity.
Qed.

(** C9 as stated fails: on a fresh runtime, a healthy first turn whose
    create finds the node already there raises that exception at the
    create; it reads no child list, installs no table, prints nothing
    and leaves [refresh] set: no reconciliation takes place. *)
Lemma first_healthy_turn_counterexample :
  let out := loop_body os_pass zk_node_exists (new_EZKRuntime conf_S) in
  outcome (os_pass (local_check conf_S)) = Exited 0
  /\ out.2 = Raise (ZkError "NodeExistsError")
  /\ out.1.1
     = [SignalInstall SIGALRM alarm_signal_handler; SetAlarm 1;
        Popen "true" true 4242; SignalInstall SIGALRM SIG_IGN;
        Log INFO "re-creating my ephemeral node";
        ZkCreate "/services/dns/10.0.0.1" true]
  /\ refresh out.1.2 = true
  /\ announce (bgp_table out.1.2) = []
  /\ stdout_lines out.1.1 = [].
Proof.
  cbn zeta. split; [reflexivity|].
  rewrite (loop_body_fatal_create os_pass zk_node_exists (new_EZKRuntime conf_S)
             (ZkError "NodeExistsError") eq_refl eq_refl eq_refl eq_refl
             ltac:(discriminate)).
  repeat split.
Qed.

(** C9, amended.  A new runtime has [refresh] and [recreate] set and
    [shouldstop] clear.  Hence, with no handler having run, after any
    number of turns whose probe failed (they print nothing and call
    nothing), the first turn whose probe passes runs from that very
    state and always issues the create of the ephemeral node, right
    after the probe.  When the create returns or finds the session
    expired, the turn reads the child list next and clears [refresh];
    with the child list read, it installs the reconciled table, prints
    its lines and ends normally.  When the create raises any other
    exception, the turn ends there with that exception: the child list
    is not read, no table is installed, nothing is printed and
    [refresh] stays set. *)
Theorem first_healthy_turn (c : EZKConf) (failing : list World) (w : World) :
  let init := new_EZKRuntime c in
  (refresh init = true /\ recreate init = true /\ shouldstop init = false)
  /\ (Forall (fun w' => outcome (w_os w' (local_check c)) <> Exited 0) failing ->
      outcome (w_os w (local_check c)) = Exited 0 ->
      let run := main_loop (failing ++ [w]) init in
      let out := loop_body (w_os w) (w_zk w) init in
      (exists t, Forall quiet t /\ run.1.1 = t ++ out.1.1)
      /\ run.1.2 = out.1.2
      /\ (exists post,
            out.1.1
            = [SignalInstall SIGALRM alarm_signal_handler; SetAlarm 1;
               Popen (local_check c) true (pid (w_os w (local_check c)));
               SignalInstall SIGALRM SIG_IGN;
               Log INFO "re-creating my ephemeral node";
               ZkCreate (node_path c) true] ++ post
            /\ (fatal_create (w_zk w) c = false ->
                exists rest,
                  post = Log INFO "refreshing children & routes"
                           :: ZkGetChildren (service_dir c) :: rest)
            /\ (forall e, zk_create (w_zk w) (node_path c) true = Raise e ->
                          e <> SessionExpiredError ->
                          post = [] /\ out.2 = Raise e))
      /\ (fatal_create (w_zk w) c = false ->
          refresh out.1.2 = false
          /\ forall children,
               zk_get_children (w_zk w) (service_dir c) = Ret children ->
               out.2 = Ret Next
               /\ announce (bgp_table out.1.2) = spec_routes c children
               /\ stdout_lines out.1.1
                  = map (fun ip => "withdraw route " +:+ ip
                                   +:+ "/32 next-hop self med 200")
                      (filter (fun ip => ip ∈ children) (srv_non_auth_ips c))
                    ++ spec_announce_lines c children)
      /\ (forall e, zk_create (w_zk w) (node_path c) true = Raise e ->
                    e <> SessionExpiredError ->
                    refresh out.1.2 = true
                    /\ announce (bgp_table out.1.2) = []
                    /\ stdout_lines out.1.1 = [])).
Proof.
  cbn zeta. split; [repeat split|].
  intros Hfail Hp.
  set (init := new_EZKRuntime c).
  assert (Hs : shouldstop init = false) by reflexivity.
  assert (Hr : recreate init = true) by reflexivity.
  split; [|split; [|split; [|split]]].
  - destruct (main_loop_failed_turns failing [w] init Hs Hfail) as (t & Hq & E).
    exists t. split; [exact Hq|]. rewrite E. cbn [fst snd].
    rewrite (proj1 (main_loop_one_turn w init Hs)). reflexivity.
  - destruct (main_loop_failed_turns failing [w] init Hs Hfail) as (t & Hq & E).
    rewrite E. cbn [fst snd]. apply (main_loop_one_turn w init Hs).
  - unfold fatal_create.
    destruct (zk_create (w_zk w) (node_path c) true) as [p|e] eqn:Ec.
    + rewrite (loop_body_create_returns (w_os w) (w_zk w) init false Hs Hp Hr
                 (ex_intro _ p Ec)).
      cbn [fst snd]. eexists. split; [reflexivity|]. split; [|discriminate].
      intros _. apply (turn_tail_starts_with_read (w_zk w) (assign_recreate false init)).
      reflexivity.
    + assert (He : e = SessionExpiredError \/ e <> SessionExpiredError).
      { destruct e; (left; reflexivity) || (right; discriminate). }
      destruct He as [->|Hne].
      * rewrite (loop_body_create_returns (w_os w) (w_zk w) init true Hs Hp Hr Ec).
        cbn [fst snd]. eexists. split; [reflexivity|].
        split; [|intros e [= <-] Hne; contradiction].
        intros _.
        apply (turn_tail_starts_with_read (w_zk w) (assign_recreate true init)).
        reflexivity.
      * rewrite (loop_body_fatal_create (w_os w) (w_zk w) init e Hs Hp Hr Ec Hne).
        cbn [fst snd]. exists []. split; [reflexivity|].
        split; [destruct e; try discriminate; contradiction|].
        intros e' [= <-] _. split; reflexivity.
  - intros Hnf. split.
    + rewrite (loop_body_probe_passed (w_os w) (w_zk w) init _ Hs
                 (check_pass (w_os w) {| command := local_check (conf init) |} Hp)).
      destruct (create_phase_ok (w_zk w) init (fun _ => Hnf)) as [b ->].
      cbn [fst snd]. apply turn_tail_refresh_cleared. reflexivity.
    + intros children Hg.
      destruct (loop_body_refresh_eq (w_os w) (w_zk w) init children
                  Hs Hp (fun _ => Hnf) eq_refl Hg) as [b ->].
      cbn [fst snd]. split; [reflexivity|]. split; [reflexivity|].
      rewrite !stdout_lines_app, stdout_lines_check_pass, stdout_lines_create,
        stdout_lines_reconcile, stdout_lines_advertise.
      reflexivity.
  - intros e Ec Hne.
    rewrite (loop_body_fatal_create (w_os w) (w_zk w) init e Hs Hp Hr Ec Hne).
    repeat split.
Qed.

(** C9 (amended) on scenario S1 after two turns with a failing probe. *)
Lemma first_healthy_turn_witness :
  let w_bad := {| w_os := os_fail; w_zk := zk_with [] |} in
  let w_good := {| w_os := os_pass; w_zk := zk_with [] |} in
  let out := loop_body os_pass (zk_with []) (new_EZKRuntime conf_S) in
  (main_loop [w_bad; w_bad; w_good] (new_EZKRuntime conf_S)).1.2 = out.1.2
  /\ refresh out.1.2 = false
  /\ announce (bgp_table out.1.2) = spec_routes conf_S []
  /\ stdout_lines out.1.1
     = ["announce route 10.0.0.2/32 next-hop self med 200";
        "announce route 10.0.0.3/32 next-hop self med 200";
        "announce route 10.0.0.1/32 next-hop self med 100"].
Proof.
  cbn zeta.
  pose (w_bad := {| w_os := os_fail; w_zk := zk_with [] |}).
  pose (w_good := {| w_os := os_pass; w_zk := zk_with [] |}).
  assert (Hbad : Forall (fun w' => outcome (w_os w' (local_check conf_S)) <> Exited 0)
                   [w_bad; w_bad]).
  { repeat constructor; discriminate. }
  destruct (first_healthy_turn conf_S [w_bad; w_bad] w_good) as (_ & H).
  destruct (H Hbad eq_refl) as (_ & Hrun & _ & Hrest & _).
  destruct (Hrest eq_refl) as (Hrefresh & Htable).
  destruct (Htable [] eq_refl) as (_ & Ht & Hl).
  split; [exact Hrun|]. split; [exact Hrefresh|]. split; [exact Ht|].
  etransitivity; [exact Hl|]. vm_compute. reflexivity.
Defined.

(** * Further properties *)

(** ** Tables and their emission *)

Lemma for_each_Forall {S A} (P : Event -> Prop) (body : A -> M S unit) :
  (forall x s, Forall P (body x s).1.1) ->
  forall xs s, Forall P (for_each xs body s).1.1.
Proof.
  intros Hb xs. induction xs as [|x xs IH]; intros s; [constructor|].
  cbn [for_each]. unfold bind.
  pose proof (Hb x s) as Hx.
  destruct (body x s) as [[t1 s1] [[]|e]]; [|exact Hx].
  pose proof (IH s1) as Hr.
  destruct (for_each xs body s1) as [[t2 s2] r].
  cbn [fst snd] in *. apply Forall_app. split; assumption.
Qed.

Lemma advertise_routes_unfold (self : BGPSpeaker) :
  advertise_routes self
  = bind (log INFO "advertising routes")
      (fun _ => bind (for_each (announce (table self)) announce_body)
                  (fun _ => emit Flush)).
Proof. reflexivity. Qed.

Lemma field_Some (route : Route) (k : string) (v : Val) :
  route !! k = Some v -> field route k = v.
Proof. unfold field. intros ->. reflexivity. Qed.

Lemma announce_body_printable (route : Route) :
  printable route ->
  announce_body route tt = ([Print (route_announce_line route)], tt, Ret tt).
Proof.
  intros [[p Hp] [m Hm]].
  unfold announce_body, route_announce_line, getitem, bind.
  rewrite Hp, Hm, (field_Some _ _ _ Hp), (field_Some _ _ _ Hm). reflexivity.
Qed.

Lemma announce_body_missing (route : Route) (k : string) :
  first_missing route = Some k ->
  announce_body route tt = ([], tt, Raise (KeyError k)).
Proof.
  unfold first_missing, announce_body, getitem, bind.
  destruct (route !! "prefix") as [p|]; [|intros [= <-]; reflexivity].
  destruct (route !! "metric") as [m|]; [discriminate|].
  intros [= <-]. reflexivity.
Qed.

Lemma for_each_announce_printable (routes : list Route) :
  Forall printable routes ->
  for_each routes announce_body tt
  = (map (fun r => Print (route_announce_line r)) routes, tt, Ret tt).
Proof.
  induction 1 as [|r routes Hr _ IH]; [reflexivity|].
  cbn [for_each map].
  erewrite bind_ret_l by (apply announce_body_printable; exact Hr).
  rewrite IH. reflexivity.
Qed.

Lemma stdout_lines_map_route (routes : list Route) :
  stdout_lines (map (fun r => Print (route_announce_line r)) routes)
  = map route_announce_line routes.
Proof.
  induction routes as [|r routes IH]; [reflexivity|]. cbn. f_equal. exact IH.
Qed.

(** X1. On a table all of whose routes have [prefix] and [metric],
    [advertise_routes] returns normally; it logs once, prints one
    announce line per route, in table order, and flushes once, at the
    end.  On an empty table it prints no line and still flushes. *)
Theorem advertise_routes_printable (self : BGPSpeaker) :
  Forall printable (announce (table self)) ->
  advertise_routes self tt
  = (Log INFO "advertising routes"
       :: map (fun r => Print (route_announce_line r)) (announce (table self))
       ++ [Flush],
     tt, Ret tt)
  /\ stdout_lines (advertise_routes self tt).1.1
     = map route_announce_line (announce (table self)).
Proof.
  intros Hall.
  assert (E : advertise_routes self tt
              = (Log INFO "advertising routes"
                   :: map (fun r => Print (route_announce_line r)) (announce (table self))
                   ++ [Flush], tt, Ret tt)).
  { rewrite advertise_routes_unfold.
    erewrite bind_ret_l by reflexivity.
    erewrite bind_ret_l by (apply for_each_announce_printable; exact Hall).
    reflexivity. }
  split; [exact E|]. rewrite E. cbn [fst snd].
  change (Log INFO "advertising routes" :: ?l)
    with ([Log INFO "advertising routes"] ++ l).
  rewrite !stdout_lines_app, stdout_lines_map_route. cbn. apply app_nil_r.
Qed.

Lemma advertise_routes_printable_witness :
  stdout_lines
    (advertise_routes
       {| table := {| announce := [mk_route "10.0.0.3" 200; mk_route "10.0.0.1" 100] |} |}
       tt).1.1
  = ["announce route 10.0.0.3/32 next-hop self med 200";
     "announce route 10.0.0.1/32 next-hop self med 100"]
  /\ (advertise_routes {| table := new_BGPTable |} tt).1.1
     = [Log INFO "advertising routes"; Flush].
Proof.
  split.
  - etransitivity.
    + apply (advertise_routes_printable
               {| table := {| announce := [mk_route "10.0.0.3" 200;
                                           mk_route "10.0.0.1" 100] |} |}).
      repeat constructor; eexists; reflexivity.
    + vm_compute. reflexivity.
  - pose proof (proj1 (advertise_routes_printable {| table := new_BGPTable |}
                         (Forall_nil_2 printable))) as E.
    rewrite E. reflexivity.
Defined.

(** X2. When the table holds a route without [prefix] (or, having it,
    without [metric]), [advertise_routes] raises [KeyError] on that
    key at that route: the lines of the routes before it are already
    printed, those of the routes after it are not, and stdout is not
    flushed. *)
Theorem advertise_routes_missing_key
    (self : BGPSpeaker) (good rest : list Route) (bad : Route) (k : string) :
  announce (table self) = good ++ bad :: rest ->
  Forall printable good ->
  first_missing bad = Some k ->
  advertise_routes self tt
  = (Log INFO "advertising routes"
       :: map (fun r => Print (route_announce_line r)) good,
     tt, Raise (KeyError k))
  /\ Flush ∉ (advertise_routes self tt).1.1.
Proof.
  intros Ht Hgood Hbad.
  assert (E : advertise_routes self tt
              = (Log INFO "advertising routes"
                   :: map (fun r => Print (route_announce_line r)) good,
                 tt, Raise (KeyError k))).
  { rewrite advertise_routes_unfold, Ht.
    erewrite bind_ret_l by reflexivity.
    erewrite bind_raise_l; [reflexivity|].
    erewrite for_each_app by (apply for_each_announce_printable; exact Hgood).
    cbn [for_each].
    erewrite bind_raise_l by (apply announce_body_missing; exact Hbad).
    cbn [fst snd]. rewrite app_nil_r. reflexivity. }
  split; [exact E|]. rewrite E. cbn [fst snd].
  intros Hin. apply elem_of_cons in Hin as [Hin|Hin]; [discriminate|].
  apply list_elem_of_fmap in Hin as (r & Hr & _). discriminate.
Qed.

Lemma advertise_routes_missing_key_witness :
  advertise_routes
    {| table := {| announce := [mk_route "10.0.0.3" 200;
                                <["prefix" := VStr "10.0.0.9"]> ∅;
                                mk_route "10.0.0.1" 100] |} |} tt
  = ([Log INFO "advertising routes";
      Print (route_announce_line (mk_route "10.0.0.3" 200))],
     tt, Raise (KeyError "metric")).
Proof.
  apply (advertise_routes_missing_key
           {| table := {| announce := [mk_route "10.0.0.3" 200;
                                       <["prefix" := VStr "10.0.0.9"]> ∅;
                                       mk_route "10.0.0.1" 100] |} |}
           [mk_route "10.0.0.3" 200] [mk_route "10.0.0.1" 100]
           (<["prefix" := VStr "10.0.0.9"]> ∅) "metric" eq_refl).
  - repeat constructor; eexists; reflexivity.
  - reflexivity.
Defined.

Lemma missing_field_printable (route : Route) :
  missing_field route = false -> printable route.
Proof.
  intros H. apply missing_field_false in H as (p & d & m & Hp & _ & Hm).
  split; eexists; eassumption.
Qed.

Lemma add_route_eq (route : Route) (t : BGPTable) :
  add_route route t
  = if missing_field route then ([], t, Raise (PyException mandatory_msg))
    else ([Log DEBUG ("adding BGP route: " +:+ fmt_s (field route "prefix"))],
          {| announce := announce t ++ [route] |}, Ret tt).
Proof.
  unfold add_route. destruct (missing_field route) eqn:E; [reflexivity|].
  apply missing_field_false in E as (p & d & m & Hp & _ & _).
  unfold getitem, bind. rewrite Hp, (field_Some _ _ _ Hp). reflexivity.
Qed.

(** X3. [add_route] accepts a route exactly when it has the three
    fields.  An accepted route becomes the last entry of the table, the
    earlier entries staying in place; a rejected one leaves the table
    as it was.  Either way, a table that held only complete routes
    still holds only complete routes. *)
Theorem add_route_invariant (route : Route) (t : BGPTable) :
  let out := add_route route t in
  (out.2 = Ret tt <-> missing_field route = false)
  /\ get_routes out.1.2
     = (if missing_field route then get_routes t else get_routes t ++ [route])
  /\ (Forall (fun r => missing_field r = false) (get_routes t) ->
      Forall (fun r => missing_field r = false) (get_routes out.1.2)).
Proof.
  cbn zeta. rewrite add_route_eq. unfold get_routes.
  destruct (missing_field route) eqn:E; cbn [fst snd announce].
  - split; [split; discriminate|]. split; [reflexivity|]. auto.
  - split; [split; reflexivity|]. split; [reflexivity|].
    intros H. apply Forall_app. split; [exact H|]. repeat constructor. exact E.
Qed.

Lemma add_route_invariant_witness :
  Forall (fun r => missing_field r = false)
    (get_routes (add_route (<["prefix" := VStr "10.0.0.9"]> ∅)
                   {| announce := [mk_route "10.0.0.1" 100] |}).1.2).
Proof.
  apply (add_route_invariant (<["prefix" := VStr "10.0.0.9"]> ∅)
           {| announce := [mk_route "10.0.0.1" 100] |}).
  repeat constructor.
Defined.

Lemma for_each_add_route (routes : list Route) (t : BGPTable) :
  Forall (fun r => missing_field r = false) routes ->
  for_each routes add_route t
  = (map (fun r => Log DEBUG ("adding BGP route: " +:+ fmt_s (field r "prefix"))) routes,
     {| announce := announce t ++ routes |}, Ret tt).
Proof.
  intros Hall. revert t. induction Hall as [|r routes Hr _ IH]; intros t.
  - cbn. rewrite app_nil_r. destruct t; reflexivity.
  - cbn [for_each map].
    erewrite bind_ret_l by (rewrite add_route_eq, Hr; reflexivity).
    rewrite IH. cbn [fst snd announce]. rewrite <- app_assoc. reflexivity.
Qed.

(** X4. Adding complete routes one after the other to a new table and
    then advertising it prints their announce lines in the order they
    were added: [get_routes] gives the routes back in insertion order,
    and the emission follows it. *)
Theorem add_then_advertise (routes : list Route) :
  Forall (fun r => missing_field r = false) routes ->
  let built := for_each routes add_route new_BGPTable in
  built.2 = Ret tt
  /\ get_routes built.1.2 = routes
  /\ (advertise_routes {| table := built.1.2 |} tt).2 = Ret tt
  /\ stdout_lines (advertise_routes {| table := built.1.2 |} tt).1.1
     = map route_announce_line routes.
Proof.
  intros Hall. cbn zeta. rewrite (for_each_add_route routes new_BGPTable Hall).
  cbn [fst snd announce new_BGPTable app get_routes].
  split; [reflexivity|]. split; [reflexivity|].
  assert (Hp : Forall printable
                 (announce (table {| table := {| announce := routes |} |}))).
  { cbn. eapply Forall_impl; [exact Hall|]. apply missing_field_printable. }
  destruct (advertise_routes_printable _ Hp) as [E L].
  split; [rewrite E; reflexivity | exact L].
Qed.

Lemma add_then_advertise_witness :
  stdout_lines
    (advertise_routes
       {| table := (for_each [mk_route "10.0.0.2" 200; mk_route "10.0.0.1" 100]
                      add_route new_BGPTable).1.2 |} tt).1.1
  = ["announce route 10.0.0.2/32 next-hop self med 200";
     "announce route 10.0.0.1/32 next-hop self med 100"].
Proof.
  etransitivity.
  - apply (add_then_advertise [mk_route "10.0.0.2" 200; mk_route "10.0.0.1" 100]).
    repeat constructor.
  - vm_compute. reflexivity.
Defined.

Lemma lookup_insert_dst (route : Route) (d : Val) (k : string) :
  k <> "dst" -> (<["dst" := d]> route : Route) !! k = route !! k.
Proof. intros Hk. apply lookup_insert_ne. congruence. Qed.

Lemma announce_body_insert_dst (route : Route) (d : Val) :
  announce_body (<["dst" := d]> route) tt = announce_body route tt.
Proof.
  unfold announce_body, getitem.
  rewrite (lookup_insert_dst route d "prefix"), (lookup_insert_dst route d "metric")
    by discriminate.
  reflexivity.
Qed.

(** X5. The [dst] of a route never reaches stdout: giving a complete
    route another [dst] changes nothing of what [withdraw_route] does,
    and giving every route of a table another [dst] changes nothing of
    what [advertise_routes] does. *)
Theorem dst_is_not_emitted
    (self : BGPSpeaker) (route : Route) (routes : list Route) (d : Val) :
  is_Some (route !! "dst") ->
  withdraw_route self (<["dst" := d]> route) tt = withdraw_route self route tt
  /\ advertise_routes {| table := {| announce := map (insert "dst" d) routes |} |} tt
     = advertise_routes {| table := {| announce := routes |} |} tt.
Proof.
  intros Hd. split.
  - assert (Hmf : missing_field (<["dst" := d]> route) = missing_field route).
    { unfold missing_field, has_key.
      rewrite (lookup_insert_dst route d "prefix"), (lookup_insert_dst route d "metric")
        by discriminate.
      rewrite lookup_insert_eq.
      rewrite (bool_decide_eq_true_2 (is_Some (Some d))) by eauto.
      rewrite (bool_decide_eq_true_2 (is_Some (route !! "dst"))) by exact Hd.
      reflexivity. }
    unfold withdraw_route, getitem.
    rewrite Hmf.
    rewrite (lookup_insert_dst route d "prefix"), (lookup_insert_dst route d "metric")
      by discriminate.
    reflexivity.
  - rewrite !advertise_routes_unfold. cbn [table announce].
    assert (E : for_each (map (insert "dst" d) routes) announce_body tt
                = for_each routes announce_body tt).
    { clear Hd. induction routes as [|r routes IH]; [reflexivity|].
      cbn [map for_each]. unfold bind.
      rewrite announce_body_insert_dst.
      destruct (announce_body r tt) as [[t1 []] [[]|e]]; [|reflexivity].
      rewrite IH. reflexivity. }
    unfold bind. cbn [log emit]. rewrite E. reflexivity.
Qed.

Lemma dst_is_not_emitted_witness :
  withdraw_route {| table := new_BGPTable |}
    (<["dst" := VStr "192.0.2.1"]> (mk_route "10.0.0.2" 200)) tt
  = withdraw_route {| table := new_BGPTable |} (mk_route "10.0.0.2" 200) tt.
Proof.
  apply (dst_is_not_emitted {| table := new_BGPTable |}
           (mk_route "10.0.0.2" 200) [] (VStr "192.0.2.1")).
  eexists. reflexivity.
Defined.

(** ** Callbacks *)

(** X7. A callback (session transition, child watch, signal) always
    returns; it never touches the configuration and never clears a
    flag: [refresh] is raised by CONNECTED and by the child watch,
    [recreate] by LOST, [shouldstop] by a signal, and each flag is
    otherwise as it was.  Only SUSPENDED replaces the table (by an empty
    one) and only SUSPENDED prints: the withdraw lines of all the
    addresses of the configuration. *)
Theorem callback_effects (cb : Callback) (s : EZKRuntime) :
  let out := run_callback cb s in
  out.2 = Ret tt
  /\ conf out.1.2 = conf s
  /\ refresh out.1.2 = refresh s || sets_refresh cb
  /\ recreate out.1.2 = recreate s || sets_recreate cb
  /\ shouldstop out.1.2 = shouldstop s || sets_shouldstop cb
  /\ bgp_table out.1.2 = (if clears_table cb then new_BGPTable else bgp_table s)
  /\ stdout_lines out.1.1
     = (if clears_table cb then
          map (fun ip => "withdraw route " +:+ ip +:+ "/32 next-hop self med 200")
            (srv_non_auth_ips (conf s))
          ++ ["withdraw route " +:+ srv_auth_ip (conf s) +:+ "/32 next-hop self med 100"]
        else []).
Proof.
  cbn zeta. destruct cb as [st|children|signum]; cbn [run_callback].
  - destruct st.
    + cbn. rewrite !orb_false_r. repeat split.
    + rewrite zk_transition_CONNECTED_eq. cbn. rewrite orb_true_r, !orb_false_r.
      repeat split.
    + rewrite zk_transition_SUSPENDED_eq.
      cbn [fst snd conf refresh recreate shouldstop bgp_table assign_bgp_table
           sets_refresh sets_recreate sets_shouldstop clears_table].
      rewrite !orb_false_r. repeat split.
      unfold suspended_events.
      rewrite !stdout_lines_app, stdout_lines_flat_withdraw. reflexivity.
    + rewrite zk_transition_LOST_eq. cbn. rewrite orb_true_r, !orb_false_r.
      repeat split.
  - cbn. rewrite orb_true_r, !orb_false_r. repeat split.
  - cbn. rewrite orb_true_r, !orb_false_r. repeat split.
Qed.

(** ** Stopping and failing turns *)

Lemma main_loop_stopped (worlds : list World) (s : EZKRuntime) :
  shouldstop s = true -> main_loop worlds s = ([], s, Ret tt).
Proof.
  intros Hs. destruct worlds as [|w rest]; [reflexivity|].
  rewrite main_loop_cons. erewrite bind_ret_l by reflexivity.
  cbn [fst snd]. rewrite Hs. reflexivity.
Qed.

(** X8. The signal handler sets [shouldstop], prints nothing and
    leaves the table as it is.  An iteration that finds [shouldstop] set
    at its test (the end of its wait) leaves the loop there: no probe is
    run, ZooKeeper is not called, nothing is printed, the runtime is
    untouched, whatever the worlds of further turns would be.  So a
    signal handled while the loop waits ends the run with no route
    withdrawn.  (A signal that falls later in an iteration is met by the
    test of the next one.) *)
Theorem stopped_loop_is_silent
    (signum : Z) (s0 s : EZKRuntime) (worlds : list World)
    (os : string -> ProbeRun) (zk : KazooClient) :
  (shouldstop (exit_signal_handler_body signum s0).1.2 = true
   /\ stdout_lines (exit_signal_handler_body signum s0).1.1 = []
   /\ bgp_table (exit_signal_handler_body signum s0).1.2 = bgp_table s0)
  /\ (shouldstop s = true ->
      loop_body os zk s = ([], s, Ret Break)
      /\ main_loop worlds s = ([], s, Ret tt)).
Proof.
  split; [repeat split|].
  intros Hs. split; [apply loop_body_stop | apply main_loop_stopped]; exact Hs.
Qed.

Lemma stopped_loop_is_silent_witness :
  let s := (exit_signal_handler_body 15
              (loop_body os_pass (zk_with []) (new_EZKRuntime conf_S)).1.2).1.2 in
  announce (bgp_table s) = spec_routes conf_S []
  /\ main_loop [ {| w_os := os_pass; w_zk := zk_with [] |} ] s = ([], s, Ret tt).
Proof.
  cbn zeta. split; [vm_compute; reflexivity|].
  apply (stopped_loop_is_silent 15 (new_EZKRuntime conf_S)
           (exit_signal_handler_body 15
              (loop_body os_pass (zk_with []) (new_EZKRuntime conf_S)).1.2).1.2
           [ {| w_os := os_pass; w_zk := zk_with [] |} ] os_pass (zk_with [])).
  reflexivity.
Defined.

(** X9. Any number of turns in a row whose probe fails leave the
    runtime exactly as it was and produce no line on stdout and no
    ZooKeeper call. *)
Theorem unhealthy_turns_change_nothing (worlds : list World) (s : EZKRuntime) :
  Forall (fun w => outcome (w_os w (local_check (conf s))) <> Exited 0) worlds ->
  let out := main_loop worlds s in
  out.2 = Ret tt /\ out.1.2 = s /\ Forall quiet out.1.1
  /\ stdout_lines out.1.1 = [].
Proof.
  intros Hall. cbn zeta.
  destruct (shouldstop s) eqn:Hs.
  - rewrite (main_loop_stopped worlds s Hs). repeat split. constructor.
  - destruct (main_loop_failed_turns worlds [] s Hs Hall) as (t & Hq & E).
    rewrite app_nil_r in E. rewrite E. cbn. rewrite app_nil_r.
    repeat split; [exact Hq | apply stdout_lines_quiet, Hq].
Qed.

Lemma unhealthy_turns_change_nothing_witness :
  (main_loop [ {| w_os := os_fail; w_zk := zk_with [] |};
               {| w_os := os_slow; w_zk := zk_with [] |} ]
     (new_EZKRuntime conf_S)).1.2
  = new_EZKRuntime conf_S.
Proof.
  apply (unhealthy_turns_change_nothing
           [ {| w_os := os_fail; w_zk := zk_with [] |};
             {| w_os := os_slow; w_zk := zk_with [] |} ]
           (new_EZKRuntime conf_S)).
  repeat constructor; discriminate.
Defined.

(** ** Reconciliation *)

(** X10. [refresh_children] raises exactly when reading the child list
    raises, and then with the same exception: building the table never
    fails.  In that case [refresh] is already cleared, the old table is
    still in place and nothing was printed. *)
Theorem refresh_children_raises_iff
    (zk : KazooClient) (s : EZKRuntime) (e : Exn) :
  let out := refresh_children zk s in
  (out.2 = Raise e <-> zk_get_children zk (service_dir (conf s)) = Raise e)
  /\ (zk_get_children zk (service_dir (conf s)) = Raise e ->
      out.1.2 = assign_refresh false s
      /\ refresh out.1.2 = false
      /\ bgp_table out.1.2 = bgp_table s
      /\ stdout_lines out.1.1 = []).
Proof.
  cbn zeta. rewrite refresh_children_eq. cbn zeta.
  destruct (zk_get_children zk (service_dir (conf s))) as [children|e'].
  - cbn [fst snd]. split; [split; discriminate | discriminate].
  - cbn [fst snd]. split; [split; intros [= ->]; reflexivity|].
    intros _. repeat split.
Qed.

Lemma refresh_children_raises_iff_witness :
  (refresh_children zk_expired (new_EZKRuntime conf_S)).2 = Raise SessionExpiredError
  /\ refresh (refresh_children zk_expired (new_EZKRuntime conf_S)).1.2 = false.
Proof.
  pose proof (refresh_children_raises_iff zk_expired (new_EZKRuntime conf_S)
                SessionExpiredError) as [H1 H2].
  split; [apply H1; reflexivity|].
  destruct (H2 eq_refl) as (_ & H & _). exact H.
Defined.

Lemma length_owned_absent (children ips : list string) :
  (length (filter (fun ip => ip ∈ children) ips)
   + length (filter (fun ip => ip ∉ children) ips) = length ips)%nat.
Proof.
  induction ips as [|ip ips IH]; [reflexivity|].
  destruct (decide (ip ∈ children)) as [Hin|Hout].
  - rewrite (filter_cons_True (fun ip => ip ∈ children)) by exact Hin.
    rewrite (filter_cons_False (fun ip => ip ∉ children))
      by (intros Hn; apply Hn, Hin).
    cbn [length]. lia.
  - rewrite (filter_cons_False (fun ip => ip ∈ children)) by exact Hout.
    rewrite (filter_cons_True (fun ip => ip ∉ children)) by exact Hout.
    cbn [length]. lia.
Qed.

(** X11. A refresh deals with every entry of [srv_non_auth_ips] in
    exactly one way: it either prints its withdraw line or puts its
    route in the new table.  So the lines printed and the routes
    installed number one more than the entries, the one more being the
    route of [srv_auth_ip], which makes the new table never empty. *)
Theorem reconcile_partition
    (zk : KazooClient) (s : EZKRuntime) (children : list string) :
  zk_get_children zk (service_dir (conf s)) = Ret children ->
  let out := refresh_children zk s in
  (length (stdout_lines out.1.1) + length (announce (bgp_table out.1.2)) =
   S (length (srv_non_auth_ips (conf s))))%nat
  /\ last (announce (bgp_table out.1.2)) = Some (mk_route (srv_auth_ip (conf s)) 100)
  /\ forall ip, ip ∈ srv_non_auth_ips (conf s) ->
       (withdraw_line (VStr ip) (VInt 200) ∈ stdout_lines out.1.1 /\ ip ∈ children)
       \/ (mk_route ip 200 ∈ announce (bgp_table out.1.2) /\ ip ∉ children).
Proof.
  intros Hg. cbn zeta. rewrite refresh_children_eq. cbn zeta. rewrite Hg.
  cbn [fst snd bgp_table assign_bgp_table announce].
  fold (reconcile_events (conf s) children).
  assert (Hl : stdout_lines (reconcile_events (conf s) children)
               = map (fun ip => withdraw_line (VStr ip) (VInt 200))
                   (filter (fun ip => ip ∈ children) (srv_non_auth_ips (conf s)))).
  { apply stdout_lines_reconcile. }
  rewrite Hl. split; [|split].
  - unfold spec_routes. rewrite length_app, !length_map. cbn [length].
    pose proof (length_owned_absent children (srv_non_auth_ips (conf s))) as Hsplit.
    lia.
  - unfold spec_routes. apply last_snoc.
  - intros ip Hip. destruct (decide (ip ∈ children)) as [Hin|Hout].
    + left. split; [|exact Hin].
      apply (list_elem_of_fmap_2 (fun ip => withdraw_line (VStr ip) (VInt 200))).
      apply list_elem_of_filter. split; assumption.
    + right. split; [|exact Hout].
      apply elem_of_spec_routes. left. exists ip. auto.
Qed.

Lemma reconcile_partition_witness :
  let out := refresh_children (zk_with ["10.0.0.2"]) (new_EZKRuntime conf_S) in
  (length (stdout_lines out.1.1) + length (announce (bgp_table out.1.2)) = 3)%nat
  /\ last (announce (bgp_table out.1.2)) = Some (mk_route "10.0.0.1" 100).
Proof.
  destruct (reconcile_partition (zk_with ["10.0.0.2"]) (new_EZKRuntime conf_S)
              ["10.0.0.2"] eq_refl) as (H1 & H2 & _).
  split; [exact H1 | exact H2].
Defined.

(** X12. After a refresh the route of [srv_auth_ip] is in the table,
    and an address other than [srv_auth_ip] has a route in the table
    exactly when it is listed in [srv_non_auth_ips] and is not a child of
    the service directory; that route is its metric-200 route. *)
Theorem reconciled_membership
    (zk : KazooClient) (s : EZKRuntime) (children : list string) (ip : string) :
  zk_get_children zk (service_dir (conf s)) = Ret children ->
  let new_table := announce (bgp_table (refresh_children zk s).1.2) in
  mk_route (srv_auth_ip (conf s)) 100 ∈ new_table
  /\ (ip <> srv_auth_ip (conf s) ->
      ((exists r, r ∈ new_table /\ r !! "prefix" = Some (VStr ip))
       <-> ip ∈ srv_non_auth_ips (conf s) /\ ip ∉ children)
      /\ (forall r, r ∈ new_table -> r !! "prefix" = Some (VStr ip) ->
                    r = mk_route ip 200)).
Proof.
  intros Hg. cbn zeta. rewrite refresh_children_eq. cbn zeta. rewrite Hg.
  cbn [fst snd bgp_table assign_bgp_table announce].
  split; [apply elem_of_spec_routes; right; reflexivity|].
  intros Hne. split; [split|].
  - intros (r & Hr & Hp).
    apply elem_of_spec_routes in Hr as [(ip' & -> & Hin & Hout) | ->];
      rewrite mk_route_prefix in Hp; injection Hp as Hp;
      [subst ip'; auto | congruence].
  - intros [Hin Hout]. exists (mk_route ip 200).
    split; [|apply mk_route_prefix].
    apply elem_of_spec_routes. left. exists ip. auto.
  - intros r Hr Hp.
    apply elem_of_spec_routes in Hr as [(ip' & -> & _ & _) | ->];
      rewrite mk_route_prefix in Hp; injection Hp as Hp;
      [subst ip'; reflexivity | congruence].
Qed.

Lemma reconciled_membership_witness :
  ~ (exists r, r ∈ announce (bgp_table (refresh_children (zk_with ["10.0.0.2"])
                                          (new_EZKRuntime conf_S)).1.2)
               /\ r !! "prefix" = Some (VStr "10.0.0.2")).
Proof.
  destruct (reconciled_membership (zk_with ["10.0.0.2"]) (new_EZKRuntime conf_S)
              ["10.0.0.2"] "10.0.0.2" eq_refl) as [_ H].
  destruct (H ltac:(discriminate)) as [[H1 _] _].
  intros Hex. destruct (H1 Hex) as [_ Hout]. apply Hout, list_elem_of_here.
Defined.

(** X13. If [srv_non_auth_ips] lists no address twice and does not
    list [srv_auth_ip], the table a refresh installs has no two routes
    with the same prefix. *)
Theorem reconciled_no_duplicate_prefix
    (zk : KazooClient) (s : EZKRuntime) (children : list string) :
  zk_get_children zk (service_dir (conf s)) = Ret children ->
  NoDup (srv_non_auth_ips (conf s)) ->
  srv_auth_ip (conf s) ∉ srv_non_auth_ips (conf s) ->
  NoDup (map (fun r : Route => r !! "prefix")
           (announce (bgp_table (refresh_children zk s).1.2))).
Proof.
  intros Hg Hnd Hauth. rewrite refresh_children_eq. cbn zeta. rewrite Hg.
  cbn [fst snd bgp_table assign_bgp_table announce].
  unfold spec_routes. rewrite map_app, map_map. cbn [map].
  assert (E : map (fun ip => mk_route ip 200 !! "prefix")
                (filter (fun ip => ip ∉ children) (srv_non_auth_ips (conf s)))
              = map (fun ip => Some (VStr ip))
                  (filter (fun ip => ip ∉ children) (srv_non_auth_ips (conf s)))).
  { apply map_ext. intros ip. apply mk_route_prefix. }
  rewrite E, mk_route_prefix.
  apply NoDup_app. split; [|split].
  - assert (Hinj : Inj eq eq (fun ip : string => Some (VStr ip))).
    { intros a b [= ->]. reflexivity. }
    apply (NoDup_fmap_2 (fun ip => Some (VStr ip))).
    apply NoDup_filter. exact Hnd.
  - intros x Hx Hx'. apply list_elem_of_singleton in Hx' as ->.
    apply list_elem_of_fmap in Hx as (ip & [= <-] & Hip).
    apply list_elem_of_filter in Hip as [_ Hip]. contradiction.
  - apply NoDup_singleton.
Qed.

Lemma reconciled_no_duplicate_prefix_witness :
  NoDup (map (fun r : Route => r !! "prefix")
           (announce (bgp_table (refresh_children (zk_with ["10.0.0.2"])
                                   (new_EZKRuntime conf_S)).1.2))).
Proof.
  apply (reconciled_no_duplicate_prefix (zk_with ["10.0.0.2"]) (new_EZKRuntime conf_S)
           ["10.0.0.2"] eq_refl).
  - repeat (apply NoDup_cons_2;
            [intros H; repeat (apply elem_of_cons in H as [H|H]; [discriminate H|]);
             by apply elem_of_nil in H|]).
    apply NoDup_nil_2.
  - intros H. repeat (apply elem_of_cons in H as [H|H]; [discriminate H|]).
    by apply elem_of_nil in H.
Defined.

(** ** All the ways a turn can go *)

Lemma check_result (os : string -> ProbeRun) (self : ServiceChecker) :
  exists t0 b,
    check os self tt = (t0, tt, Ret b)
    /\ Forall quiet t0
    /\ (b = true <-> outcome (os (command self)) = Exited 0).
Proof.
  assert (Hcases : outcome (os (command self)) = Exited 0
                   \/ outcome (os (command self)) <> Exited 0).
  { destruct (outcome (os (command self))) as [rc|]; [|right; discriminate].
    destruct (decide (rc = 0)) as [->|Hn]; [left; reflexivity|].
    right. intros [= H]. contradiction. }
  destruct Hcases as [Hp|Hf].
  - exists (check_pass_events (command self) (os (command self))), true.
    split; [apply check_pass, Hp|]. split; [|tauto].
    unfold check_pass_events, check_prologue. cbn. repeat constructor.
  - destruct (check_fail os self Hf) as (t0 & E & Hq).
    exists t0, false. split; [exact E|]. split; [exact Hq|].
    split; [discriminate | contradiction].
Qed.

(** A turn stops at once, or goes on after a failed probe, or ends in
    the exception of the create, or runs its tail. *)
Lemma loop_body_decompose
    (os : string -> ProbeRun) (zk : KazooClient) (s : EZKRuntime) :
  exists t0,
    Forall quiet t0
    /\ (loop_body os zk s = (t0, s, Ret Break)
        \/ loop_body os zk s = (t0, s, Ret Next)
        \/ (exists e,
              recreate s = true
              /\ zk_create zk (node_path (conf s)) true = Raise e
              /\ e <> SessionExpiredError
              /\ loop_body os zk s
                 = (t0 ++ create_events (conf s), assign_recreate false s, Raise e))
        \/ (exists b,
              (recreate s = false -> b = false)
              /\ (recreate s = true ->
                  b = match zk_create zk (node_path (conf s)) true with
                      | Raise SessionExpiredError => true
                      | _ => false
                      end)
              /\ loop_body os zk s
                 = (t0 ++ (if recreate s then create_events (conf s) else [])
                       ++ (turn_tail zk (assign_recreate b s)).1.1,
                    (turn_tail zk (assign_recreate b s)).1.2,
                    (turn_tail zk (assign_recreate b s)).2))).
Proof.
  destruct (shouldstop s) eqn:Hs.
  { exists []. split; [constructor|]. left. apply loop_body_stop, Hs. }
  destruct (check_result os {| command := local_check (conf s) |})
    as (t0 & b & Hc & Hq & Hb).
  exists t0. split; [exact Hq|].
  destruct b.
  2:{ right. left. apply (loop_body_probe_failed os zk s t0 Hs Hc). }
  right. right.
  rewrite (loop_body_probe_passed os zk s t0 Hs Hc), create_phase_eq.
  destruct (recreate s) eqn:Hr.
  - destruct (zk_create zk (node_path (conf s)) true) as [p|e] eqn:Ec.
    + right. exists false. split; [reflexivity|]. split; reflexivity.
    + destruct e;
        try (left; eexists; split; [reflexivity|];
             split; [reflexivity|]; split; [discriminate|reflexivity]).
      right. exists true. split; [discriminate|]. split; reflexivity.
  - right. exists false. split; [reflexivity|]. split; [discriminate|].
    pose proof (assign_recreate_same s) as Es. rewrite Hr in Es.
    rewrite Es. reflexivity.
Qed.

Lemma advertise_routes_speaker_events (self : BGPSpeaker) :
  Forall speaker_event (advertise_routes self tt).1.1.
Proof.
  rewrite advertise_routes_unfold. unfold bind. cbn [log emit].
  pose proof (for_each_Forall speaker_event announce_body) as H.
  specialize (H ltac:(intros r []; unfold announce_body, getitem, bind;
                      destruct (r !! "prefix"); [|constructor];
                      destruct (r !! "metric"); repeat constructor)
                (announce (table self)) tt).
  destruct (for_each (announce (table self)) announce_body tt) as [[t1 []] [[]|e]];
    cbn [fst snd app] in *.
  - constructor; [exact I|]. apply Forall_app. split; [exact H|repeat constructor].
  - constructor; [exact I | exact H].
Qed.

Lemma refresh_events_no_zk (children ips : list string) :
  Forall speaker_event (refresh_events children ips).
Proof.
  induction ips as [|ip ips IH]; [constructor|].
  cbn [refresh_events flat_map]. apply Forall_app. split; [|exact IH].
  case_bool_decide; repeat constructor.
Qed.

(** The tail of a turn creates no node; without [refresh] it only
    speaks, and leaves the runtime alone. *)
Lemma turn_tail_events (zk : KazooClient) (s1 : EZKRuntime) :
  Forall (fun e => match e with ZkCreate _ _ => False | _ => True end)
    (turn_tail zk s1).1.1
  /\ (refresh s1 = false ->
      Forall speaker_event (turn_tail zk s1).1.1 /\ (turn_tail zk s1).1.2 = s1).
Proof.
  assert (Hweak : forall t, Forall speaker_event t ->
            Forall (fun e => match e with ZkCreate _ _ => False | _ => True end) t).
  { intros t Ht. eapply Forall_impl; [exact Ht|]. intros []; cbn; tauto. }
  rewrite turn_tail_eq. destruct (refresh s1).
  - split; [|discriminate].
    destruct (zk_get_children zk (service_dir (conf s1))) as [children|e];
      cbn [fst snd]; [|repeat constructor].
    unfold reconcile_events, advertise_events.
    repeat (apply Forall_app; split); try (repeat constructor; fail).
    + apply Hweak, refresh_events_no_zk.
    + constructor; [exact I|]. apply Forall_app. split; [|repeat constructor].
      apply Forall_fmap, Forall_true. intros l. exact I.
  - pose proof (advertise_routes_speaker_events {| table := bgp_table s1 |}) as Ha.
    destruct (advertise_routes _ tt) as [[t3 []] [[]|e]]; cbn [fst snd] in *;
      (split; [apply Hweak, Ha | intros _; split; [exact Ha | reflexivity]]).
Qed.

(** X14. When the create of a healthy turn raises anything but
    [SessionExpiredError], the exception leaves the loop: the run ends
    there, whatever further turns would have met; [recreate] is left
    cleared, nothing was printed and the child list was not read. *)
Theorem fatal_create_ends_run
    (w : World) (rest : list World) (s : EZKRuntime) (e : Exn) :
  shouldstop s = false ->
  outcome (w_os w (local_check (conf s))) = Exited 0 ->
  recreate s = true ->
  zk_create (w_zk w) (node_path (conf s)) true = Raise e ->
  e <> SessionExpiredError ->
  main_loop (w :: rest) s
  = (check_pass_events (local_check (conf s)) (w_os w (local_check (conf s)))
       ++ create_events (conf s),
     assign_recreate false s, Raise e)
  /\ stdout_lines (main_loop (w :: rest) s).1.1 = [].
Proof.
  intros Hs Hp Hr Hc He.
  assert (E : loop_body (w_os w) (w_zk w) s
              = (check_pass_events (local_check (conf s))
                   (w_os w (local_check (conf s))) ++ create_events (conf s),
                 assign_recreate false s, Raise e)).
  { rewrite (loop_body_probe_passed (w_os w) (w_zk w) s _ Hs
               (check_pass (w_os w) {| command := local_check (conf s) |} Hp)).
    rewrite create_phase_eq, Hr, Hc.
    destruct e; try reflexivity. contradiction. }
  assert (E' : main_loop (w :: rest) s
               = (check_pass_events (local_check (conf s))
                    (w_os w (local_check (conf s))) ++ create_events (conf s),
                  assign_recreate false s, Raise e)).
  { rewrite main_loop_cons. erewrite bind_ret_l by reflexivity.
    cbn [fst snd]. rewrite Hs.
    erewrite bind_raise_l by exact E. reflexivity. }
  split; [exact E'|]. rewrite E'. cbn [fst snd].
  rewrite stdout_lines_app. reflexivity.
Qed.

Lemma fatal_create_ends_run_witness :
  (main_loop [ {| w_os := os_pass; w_zk := zk_node_exists |};
               {| w_os := os_pass; w_zk := zk_with [] |} ]
     (new_EZKRuntime conf_S)).2
  = Raise (ZkError "NodeExistsError").
Proof.
  pose proof (fatal_create_ends_run {| w_os := os_pass; w_zk := zk_node_exists |}
                [ {| w_os := os_pass; w_zk := zk_with [] |} ]
                (new_EZKRuntime conf_S) (ZkError "NodeExistsError")
                eq_refl eq_refl eq_refl eq_refl ltac:(discriminate)) as [E _].
  rewrite E. reflexivity.
Defined.

(** X15. A turn calls ZooKeeper only for the flags that are set: with
    [recreate] clear it issues no create; with [refresh] clear it does
    not read the child list and leaves the table as it is.  This holds
    whatever the probe, the ensemble and the table are. *)
Theorem turn_calls_follow_flags
    (os : string -> ProbeRun) (zk : KazooClient) (s : EZKRuntime) :
  let out := loop_body os zk s in
  (recreate s = false -> forall p b, ZkCreate p b ∉ out.1.1)
  /\ (refresh s = false ->
      (forall p, ZkGetChildren p ∉ out.1.1) /\ bgp_table out.1.2 = bgp_table s).
Proof.
  cbn zeta.
  destruct (loop_body_decompose os zk s) as (t0 & Hq & Hcases).
  assert (Hq1 : forall p b, ZkCreate p b ∉ t0).
  { intros p b Hin. rewrite Forall_forall in Hq. exact (Hq _ Hin). }
  assert (Hq2 : forall p, ZkGetChildren p ∉ t0).
  { intros p Hin. rewrite Forall_forall in Hq. exact (Hq _ Hin). }
  destruct Hcases as [E|[E|[(e & Hr & Hc & He & E)|(b & Hb0 & Hb1 & E)]]];
    rewrite E; cbn [fst snd].
  - split; intros _; [exact Hq1 | split; [exact Hq2 | reflexivity]].
  - split; intros _; [exact Hq1 | split; [exact Hq2 | reflexivity]].
  - split; [congruence|]. intros _. split; [|reflexivity].
    intros p Hin. apply elem_of_app in Hin as [Hin|Hin]; [exact (Hq2 _ Hin)|].
    unfold create_events in Hin.
    repeat (apply elem_of_cons in Hin as [Hin|Hin]; [discriminate Hin|]).
    by apply elem_of_nil in Hin.
  - destruct (turn_tail_events zk (assign_recreate b s)) as [Hnc Hnr].
    split.
    + intros Hr p b' Hin. rewrite Hr in Hin. cbn [app] in Hin.
      apply elem_of_app in Hin as [Hin|Hin]; [exact (Hq1 _ _ Hin)|].
      rewrite Forall_forall in Hnc. exact (Hnc _ Hin).
    + intros Hr. destruct (Hnr Hr) as [Hsp Hst]. rewrite Hst.
      split; [|reflexivity].
      intros p Hin. apply elem_of_app in Hin as [Hin|Hin]; [exact (Hq2 _ Hin)|].
      apply elem_of_app in Hin as [Hin|Hin].
      * destruct (recreate s); [|by apply elem_of_nil in Hin].
        unfold create_events in Hin.
        repeat (apply elem_of_cons in Hin as [Hin|Hin]; [discriminate Hin|]).
        by apply elem_of_nil in Hin.
      * rewrite Forall_forall in Hsp. exact (Hsp _ Hin).
Qed.

Lemma turn_calls_follow_flags_witness :
  let s := assign_refresh false (assign_recreate false (new_EZKRuntime conf_S)) in
  (forall p b, ZkCreate p b ∉ (loop_body os_pass (zk_with []) s).1.1)
  /\ (forall p, ZkGetChildren p ∉ (loop_body os_pass (zk_with []) s).1.1).
Proof.
  cbn zeta.
  destruct (turn_calls_follow_flags os_pass (zk_with [])
              (assign_refresh false (assign_recreate false (new_EZKRuntime conf_S))))
    as [H1 H2].
  split; [exact (H1 eq_refl) | exact (proj1 (H2 eq_refl))].
Defined.

(** X16. After a healthy turn with [recreate] set, the flag is set
    again exactly when the create raised [SessionExpiredError]: the next
    healthy turn then tries the create again; in every other case the
    flag is clear, also when the create failed for good. *)
Theorem recreate_after_turn
    (os : string -> ProbeRun) (zk : KazooClient) (s : EZKRuntime) :
  shouldstop s = false ->
  outcome (os (local_check (conf s))) = Exited 0 ->
  recreate s = true ->
  recreate (loop_body os zk s).1.2
  = match zk_create zk (node_path (conf s)) true with
    | Raise SessionExpiredError => true
    | _ => false
    end.
Proof.
  intros Hs Hp Hr.
  rewrite (loop_body_probe_passed os zk s _ Hs
             (check_pass os {| command := local_check (conf s) |} Hp)).
  rewrite create_phase_eq, Hr.
  destruct (zk_create zk (node_path (conf s)) true) as [p|e].
  - cbn [fst snd].
    apply (turn_tail_state zk (assign_recreate false s)).
  - destruct e; try reflexivity. cbn [fst snd].
    apply (turn_tail_state zk (assign_recreate true s)).
Qed.

Lemma recreate_after_turn_witness :
  recreate (loop_body os_pass zk_expired (new_EZKRuntime conf_S)).1.2 = true
  /\ recreate (loop_body os_pass (zk_with []) (new_EZKRuntime conf_S)).1.2 = false.
Proof.
  split.
  - apply (recreate_after_turn os_pass zk_expired (new_EZKRuntime conf_S)
             eq_refl eq_refl eq_refl).
  - apply (recreate_after_turn os_pass (zk_with []) (new_EZKRuntime conf_S)
             eq_refl eq_refl eq_refl).
Defined.

(** X17. When a transition to SUSPENDED is handled between two
    iterations (while the loop waits) and [refresh] is not raised before
    the next one (by CONNECTED or by the child watch), that iteration,
    its probe passing, prints nothing and leaves the table empty: what
    the listener withdrew is not announced by it. *)
Theorem suspended_then_silent
    (os : string -> ProbeRun) (zk : KazooClient) (s : EZKRuntime) :
  shouldstop s = false ->
  outcome (os (local_check (conf s))) = Exited 0 ->
  refresh s = false ->
  let s' := (zk_transition SUSPENDED s).1.2 in
  stdout_lines (loop_body os zk s').1.1 = []
  /\ announce (bgp_table (loop_body os zk s').1.2) = [].
Proof.
  intros Hs Hp Hr. cbn zeta. rewrite zk_transition_SUSPENDED_eq. cbn [fst snd].
  set (s' := assign_bgp_table new_BGPTable s).
  assert (Hs' : shouldstop s' = false) by exact Hs.
  assert (Hp' : outcome (os (local_check (conf s'))) = Exited 0) by exact Hp.
  rewrite (loop_body_probe_passed os zk s' _ Hs'
             (check_pass os {| command := local_check (conf s') |} Hp')).
  destruct (create_phase_shape zk s') as (b & r & ->).
  assert (Hc : stdout_lines (if recreate s' then create_events (conf s') else []) = [])
    by apply stdout_lines_create.
  destruct r as [[]|e]; cbn [fst snd].
  - rewrite turn_tail_eq. cbn [refresh assign_recreate]. change (refresh s') with (refresh s).
    rewrite Hr. cbn [bgp_table assign_recreate]. change (bgp_table s') with new_BGPTable.
    cbn [fst snd].
    rewrite !stdout_lines_app, Hc. split; reflexivity.
  - rewrite stdout_lines_app, Hc. split; reflexivity.
Qed.

Lemma suspended_then_silent_witness :
  let s := assign_refresh false
             (loop_body os_pass (zk_with []) (new_EZKRuntime conf_S)).1.2 in
  announce (bgp_table s) = spec_routes conf_S []
  /\ stdout_lines
       (loop_body os_pass (zk_with []) (zk_transition SUSPENDED s).1.2).1.1 = [].
Proof.
  cbn zeta. split; [vm_compute; reflexivity|].
  apply (suspended_then_silent os_pass (zk_with [])
           (assign_refresh false
              (loop_body os_pass (zk_with []) (new_EZKRuntime conf_S)).1.2));
    vm_compute; reflexivity.
Defined.

(** ** What holds all along a run *)

Lemma run_callback_state (cb : Callback) (s : EZKRuntime) :
  conf (run_callback cb s).1.2 = conf s
  /\ (bgp_table (run_callback cb s).1.2 = bgp_table s
      \/ bgp_table (run_callback cb s).1.2 = new_BGPTable).
Proof.
  destruct cb as [[]|children|signum]; cbn [run_callback];
    rewrite ?zk_transition_SUSPENDED_eq; cbn; auto.
Qed.

Lemma loop_body_state (os : string -> ProbeRun) (zk : KazooClient) (s : EZKRuntime) :
  let out := loop_body os zk s in
  conf out.1.2 = conf s
  /\ shouldstop out.1.2 = shouldstop s
  /\ (bgp_table out.1.2 = bgp_table s
      \/ exists children,
           zk_get_children zk (service_dir (conf s)) = Ret children
           /\ bgp_table out.1.2 = {| announce := spec_routes (conf s) children |}).
Proof.
  cbn zeta.
  destruct (loop_body_decompose os zk s)
    as (t0 & _ & [E|[E|[(e & _ & _ & _ & E)|(b & _ & _ & E)]]]);
    rewrite E; cbn [fst snd]; auto.
  destruct (turn_tail_state zk (assign_recreate b s)) as (Hc & _ & Hst & Ht).
  cbn [conf shouldstop bgp_table assign_recreate] in *. auto.
Qed.

Lemma reachable_table (c : EZKConf) (s : EZKRuntime) :
  reachable c s ->
  conf s = c
  /\ (bgp_table s = new_BGPTable
      \/ exists children, bgp_table s = {| announce := spec_routes c children |}).
Proof.
  unfold reachable. revert s.
  apply (rtc_ind_r
           (fun s => conf s = c
                     /\ (bgp_table s = new_BGPTable
                         \/ exists children,
                              bgp_table s = {| announce := spec_routes c children |}))
           (new_EZKRuntime c)); [|intros s1 s2 Hreach Hstep IH].
  - split; [reflexivity | left; reflexivity].
  - destruct IH as [Hc Ht]. destruct Hstep as [cb s1|w s1].
    + destruct (run_callback_state cb s1) as [Hc' [Ht'|Ht']].
      * split; [congruence|]. rewrite Ht'. exact Ht.
      * split; [congruence|]. left. exact Ht'.
    + destruct (loop_body_state (w_os w) (w_zk w) s1) as (Hc' & _ & [Ht'|Ht']).
      * split; [congruence|]. rewrite Ht'. exact Ht.
      * destruct Ht' as (children & _ & Ht').
        split; [congruence|]. right. exists children. rewrite Ht', Hc. reflexivity.
Qed.

Lemma spec_routes_complete (c : EZKConf) (children : list string) :
  Forall (fun r => missing_field r = false) (spec_routes c children).
Proof.
  apply Forall_forall. intros r Hr.
  apply elem_of_spec_routes in Hr as [(ip & -> & _) | ->]; reflexivity.
Qed.

(** X18. Whatever callbacks and turns a run has gone through, in
    whatever worlds, the runtime still holds the configuration it was
    started with, and its table is either empty or the table of a
    reconciliation: complete routes only, the last one being the
    metric-100 route of [srv_auth_ip].  Advertising it never raises. *)
Theorem reachable_invariant (c : EZKConf) (s : EZKRuntime) :
  reachable c s ->
  conf s = c
  /\ (announce (bgp_table s) = []
      \/ exists children, announce (bgp_table s) = spec_routes c children)
  /\ Forall (fun r => missing_field r = false) (announce (bgp_table s))
  /\ (announce (bgp_table s) <> [] ->
      last (announce (bgp_table s)) = Some (mk_route (srv_auth_ip c) 100))
  /\ (advertise_routes {| table := bgp_table s |} tt).2 = Ret tt.
Proof.
  intros H. destruct (reachable_table c s H) as [Hc [Ht|(children & Ht)]].
  - rewrite Ht. cbn [announce new_BGPTable].
    split; [exact Hc|]. split; [left; reflexivity|]. split; [constructor|].
    split; [congruence | reflexivity].
  - rewrite Ht. cbn [announce].
    split; [exact Hc|]. split; [right; eauto|].
    split; [apply spec_routes_complete|].
    split; [intros _; unfold spec_routes; apply last_snoc|].
    rewrite advertise_spec_routes. reflexivity.
Qed.

Lemma reachable_invariant_witness :
  let s := (loop_body os_pass (zk_with ["10.0.0.2"])
              (run_callback (OnTransition LOST) (new_EZKRuntime conf_S)).1.2).1.2 in
  conf s = conf_S
  /\ last (announce (bgp_table s)) = Some (mk_route "10.0.0.1" 100).
Proof.
  cbn zeta.
  assert (Hreach : reachable conf_S
            (loop_body os_pass (zk_with ["10.0.0.2"])
               (run_callback (OnTransition LOST) (new_EZKRuntime conf_S)).1.2).1.2).
  { eapply rtc_l; [apply (happens_callback (OnTransition LOST))|].
    apply rtc_once.
    apply (happens_turn {| w_os := os_pass; w_zk := zk_with ["10.0.0.2"] |}). }
  destruct (reachable_invariant conf_S _ Hreach) as (Hc & _ & _ & Hl & _).
  split; [exact Hc|]. apply Hl. vm_compute. discriminate.
Defined.

(** X20. A refresh forgets the past: what it prints and the table it
    installs depend on the configuration and on the child list only, not
    on the table or the flags the runtime had.  [recreate], [shouldstop]
    and the configuration come out as they went in. *)
Theorem refresh_forgets_history (zk : KazooClient) (s1 s2 : EZKRuntime) :
  conf s1 = conf s2 ->
  (refresh_children zk s1).1.1 = (refresh_children zk s2).1.1
  /\ (refresh_children zk s1).2 = (refresh_children zk s2).2
  /\ ((refresh_children zk s1).2 = Ret tt ->
      bgp_table (refresh_children zk s1).1.2 = bgp_table (refresh_children zk s2).1.2)
  /\ recreate (refresh_children zk s1).1.2 = recreate s1
  /\ shouldstop (refresh_children zk s1).1.2 = shouldstop s1
  /\ conf (refresh_children zk s1).1.2 = conf s1.
Proof.
  intros Hc. rewrite !refresh_children_eq. cbn zeta. rewrite <- Hc.
  destruct (zk_get_children zk (service_dir (conf s1))) as [children|e];
    cbn [fst snd]; repeat split. discriminate.
Qed.

Lemma refresh_forgets_history_witness :
  bgp_table (refresh_children (zk_with ["10.0.0.2"]) (new_EZKRuntime conf_S)).1.2
  = bgp_table (refresh_children (zk_with ["10.0.0.2"])
                 (zk_transition SUSPENDED
                    (loop_body os_pass (zk_with []) (new_EZKRuntime conf_S)).1.2).1.2).1.2.
Proof.
  destruct (refresh_forgets_history (zk_with ["10.0.0.2"]) (new_EZKRuntime conf_S)
              (zk_transition SUSPENDED
                 (loop_body os_pass (zk_with []) (new_EZKRuntime conf_S)).1.2).1.2)
    as (_ & _ & H & _).
  - vm_compute. reflexivity.
  - apply H. vm_compute. reflexivity.
Defined.

(** X21. A turn of the loop never raises a flag and never touches
    [shouldstop] or the configuration: a flag that is set after the turn
    was set before it.  With X7 (callbacks never clear a flag) this makes
    the loop the only one to clear [refresh] and [recreate]. *)
Theorem turn_never_raises_a_flag
    (os : string -> ProbeRun) (zk : KazooClient) (s : EZKRuntime) :
  let out := loop_body os zk s in
  conf out.1.2 = conf s
  /\ shouldstop out.1.2 = shouldstop s
  /\ (refresh out.1.2 = true -> refresh s = true)
  /\ (recreate out.1.2 = true -> recreate s = true).
Proof.
  cbn zeta.
  destruct (loop_body_state os zk s) as (Hc & Hs & _).
  split; [exact Hc|]. split; [exact Hs|].
  destruct (loop_body_decompose os zk s)
    as (t0 & _ & [E|[E|[(e & Hr & _ & _ & E)|(b & Hb0 & _ & E)]]]);
    rewrite E; cbn [fst snd];
    [tauto | tauto | cbn; split; [tauto | discriminate] |].
  destruct (turn_tail_state zk (assign_recreate b s)) as (_ & Hrc & _).
  rewrite Hrc. cbn [recreate assign_recreate]. split.
  - rewrite turn_tail_eq. cbn [refresh conf assign_recreate].
    destruct (refresh s) eqn:Hrf; [reflexivity|].
    destruct (advertise_routes _ tt) as [[t3 []] [[]|e]]; cbn [fst snd];
      cbn; congruence.
  - intros ->. destruct (recreate s); [reflexivity|].
    specialize (Hb0 eq_refl). discriminate.
Qed.

Lemma turn_never_raises_a_flag_witness :
  refresh (loop_body os_pass (zk_with [])
             (assign_refresh false (new_EZKRuntime conf_S))).1.2 = false.
Proof.
  destruct (turn_never_raises_a_flag os_pass (zk_with [])
              (assign_refresh false (new_EZKRuntime conf_S))) as (_ & _ & H & _).
  destruct (refresh (loop_body os_pass (zk_with [])
                       (assign_refresh false (new_EZKRuntime conf_S))).1.2);
    [|reflexivity].
  symmetry. apply H. reflexivity.
Defined.
